(** * Quantized 2-D convolution module (torch/nn/quantized/modules/conv.py)

    A shallow embedding of the [Conv2d] class of
    [torch/nn/quantized/modules/conv.py] and the properties its
    specification states about it.

    Python objects are mutated in place and exceptions leave the
    mutations done so far behind, so the methods are written in a small
    state-and-exception monad over the object they act on.  The tensor
    library, the compute backend and the observers are collaborators of
    the module: they are taken as an interface ([Backend]), and every
    call to them is recorded in a log, so that "is called", "is never
    called" and "is called with this argument" are statements about the
    log.

    [extra_repr] only formats the attributes as text and is not
    modelled. *)

From Stdlib Require Import ZArith List Bool Lia Floats.
From stdpp Require Import gmap strings.

Set Warnings "-inexact-float,-register-all".
Open Scope Z_scope.

(** ** Python values of the tensor library *)

(** The three quantized element types of the tensor library. *)
Inductive dtype := qint8 | quint8 | qint32.

Definition dtype_eqb (a b : dtype) : bool :=
  match a, b with
  | qint8, qint8 | quint8, quint8 | qint32, qint32 => true
  | _, _ => false
  end.

(** The exceptions that the module raises or lets through. *)
Inductive exn :=
| NotImplementedError (msg : string)
| ValueError (msg : string)
| AssertionError (msg : string)
| ZeroDivisionError
| KeyError (key : string)
| IndexError
| AttributeError (name : string)
| TypeError (msg : string)
| RuntimeError (msg : string).

Definition result (A : Type) : Type := (exn + A)%type.

(** A quantized tensor is a strided view of integer storage: each
    dimension has a size and a stride, as in the tensor library, together
    with its quantization parameters.  Scales are Python floats: IEEE
    binary64, the kernel's primitive floats. *)
Record QTensor := mkQTensor {
  q_dims : list (Z * Z);
  q_offset : Z;
  q_storage : list Z;
  q_scale : float;
  q_zero_point : Z;
  q_dtype : dtype
}.

(** [shape] of a tensor: the sizes of its dimensions. *)
Definition shape (t : QTensor) : list Z := map fst (q_dims t).

(** The element of a view at a multi-index. *)
Fixpoint linear_index (dims : list (Z * Z)) (idx : list Z) : Z :=
  match dims, idx with
  | (_, stride) :: dims', i :: idx' => i * stride + linear_index dims' idx'
  | _, _ => 0
  end.

Definition q_elem (t : QTensor) (idx : list Z) : Z :=
  nth (Z.to_nat (q_offset t + linear_index (q_dims t) idx)) (q_storage t) 0.

(** A real tensor: its shape and its elements in row-major order. *)
Record FTensor := mkFTensor {
  f_shape : list Z;
  f_data : list float
}.

(** [Tensor.permute(dims)]: dimension [i] of the result is dimension
    [dims[i]] of the argument; the storage is shared.  The tensor library
    refuses a list that is not a permutation of the dimensions. *)
Fixpoint distinct (l : list nat) : bool :=
  match l with
  | nil => true
  | x :: l' => negb (existsb (Nat.eqb x) l') && distinct l'
  end.

Definition is_permutation_of_dims (dims : list nat) (n : nat) : bool :=
  Nat.eqb (length dims) n && forallb (fun d => Nat.ltb d n) dims && distinct dims.

Definition permute (dims : list nat) (t : QTensor) : result QTensor :=
  if is_permutation_of_dims dims (length (q_dims t)) then
    inr (mkQTensor (map (fun d => nth d (q_dims t) (0, 0)) dims)
                   (q_offset t) (q_storage t)
                   (q_scale t) (q_zero_point t) (q_dtype t))
  else
    inl (RuntimeError "number of dims don't match in permute").

Arguments permute : simpl never.

(** ** Observers and the float module handed to [from_float] *)

(** An observer has a configured target dtype and the tensors it has
    seen so far; the statistics and the parameters it derives from them
    are the observer subsystem's. *)
Record Observer := mkObserver {
  obs_dtype : dtype;
  obs_seen : list FTensor
}.

(** [observer(x)]: the observer records [x]; its dtype is a setting and
    does not change. *)
Definition observe (o : Observer) (x : FTensor) : Observer :=
  mkObserver (obs_dtype o) (x :: obs_seen o).

(** [mod.qconfig]: [weight()] makes a fresh weight observer. *)
Record QConfig := mkQConfig {
  qconfig_weight : Observer
}.

(** The classes [from_float] compares [type(mod)] with. *)
Inductive module_class :=
| nn_Conv2d          (* torch.nn.Conv2d *)
| nni_ConvReLU2d     (* torch.nn._intrinsic.ConvReLU2d *)
| nniqat_ConvBn2d    (* torch.nn._intrinsic.qat.ConvBn2d *)
| other_class (name : string).

Definition module_class_eqb (a b : module_class) : bool :=
  match a, b with
  | nn_Conv2d, nn_Conv2d => true
  | nni_ConvReLU2d, nni_ConvReLU2d => true
  | nniqat_ConvBn2d, nniqat_ConvBn2d => true
  | other_class x, other_class y => String.eqb x y
  | _, _ => false
  end.

(** A constructor argument that is an int or a pair of ints. *)
Inductive int_or_pair := Int (n : Z) | Pair (a b : Z).

(** [_pair]: an int is repeated, a pair is kept. *)
Definition _pair (x : int_or_pair) : Z * Z :=
  match x with
  | Int n => (n, n)
  | Pair a b => (a, b)
  end.

(** The statistics and affine parameters of a batch normalization that a
    [ConvBn2d] carries. *)
Record BatchNorm := mkBatchNorm {
  running_mean : FTensor;
  running_var : FTensor;
  eps : float;
  gamma : FTensor;
  beta : FTensor
}.

(** The float module: the attributes [from_float] reads, under their
    names with the prefix [fm_] (the quantized module has attributes of the
    same names).  An attribute that a module may lack is an [option]
    ([None]: [hasattr] is false); [fm_bias] is [None] for a module built
    without bias; [fm_bn] are the attributes that only a [ConvBn2d] has.  A
    sequential module has children ([mod[0]], [mod[1]]). *)
Inductive FloatModule := mkFloatModule {
  fm_type : module_class;
  fm_weight_fake_quant : option Observer;
  fm_observer : option Observer;
  fm_qconfig : option QConfig;
  fm_weight : FTensor;
  fm_bias : option FTensor;
  fm_bn : option BatchNorm;
  fm_in_channels : Z;
  fm_out_channels : Z;
  fm_kernel_size : int_or_pair;
  fm_stride : int_or_pair;
  fm_padding : int_or_pair;
  fm_dilation : int_or_pair;
  fm_groups : Z;
  fm_padding_mode : string;
  fm_children : list FloatModule
}.

Definition fm_set_weight_bias (w : FTensor) (b : option FTensor) (m : FloatModule)
  : FloatModule :=
  mkFloatModule (fm_type m) (fm_weight_fake_quant m) (fm_observer m) (fm_qconfig m)
    w b (fm_bn m) (fm_in_channels m) (fm_out_channels m) (fm_kernel_size m)
    (fm_stride m) (fm_padding m) (fm_dilation m) (fm_groups m) (fm_padding_mode m)
    (fm_children m).

(** ** Untyped Python values *)

(** The values found in a state dictionary, in the state tuple and in the
    [bias] attribute.  [P] is the type of the opaque packed weight.
    [PyTensorF] and [PyTensorI] are the one-element tensors made by
    [torch.tensor] from a float and from an int. *)
Inductive pyval (P : Type) :=
| PyInt (n : Z)
| PyFloat (x : float)
| PyBool (b : bool)
| PyStr (s : string)
| PyNone
| PyTuple2 (a b : Z)
| PyQTensor (t : QTensor)
| PyTensorF (x : float)
| PyTensorI (n : Z)
| PyPacked (p : P).

Arguments PyInt {P} n.
Arguments PyFloat {P} x.
Arguments PyBool {P} b.
Arguments PyStr {P} s.
Arguments PyNone {P}.
Arguments PyTuple2 {P} a b.
Arguments PyQTensor {P} t.
Arguments PyTensorF {P} x.
Arguments PyTensorI {P} n.
Arguments PyPacked {P} p.

(** A value is portable when it is not the opaque packed weight. *)
Definition is_packed {P} (v : pyval P) : bool :=
  match v with
  | PyPacked _ => true
  | _ => false
  end.

(** ** The collaborators *)

(** The compute backend ([conv_prepack], [conv_unpack], [conv2d]), the
    tensor library ([_empty_affine_quantized], [quantize_linear],
    [dequantize], the conversions [float(v)] and [int(v)], the rounding
    of [torch.tensor] to its default float type), the observers
    ([calculate_qparams]) and [fuse_conv_bn_weights].  [Packed] is the
    opaque packed weight.  A call that the collaborator may refuse
    returns a [result]. *)
Class Backend := {
  Packed : Type;
  conv_prepack : QTensor -> Z * Z -> Z * Z -> Z * Z -> Z -> result Packed;
  conv_unpack : Packed -> result QTensor;
  conv2d : QTensor -> Packed -> option QTensor ->
           Z * Z -> Z * Z -> Z * Z -> Z -> float -> Z -> result QTensor;
  _empty_affine_quantized : list Z -> float -> Z -> dtype -> result QTensor;
  quantize_linear : FTensor -> float -> Z -> dtype -> result QTensor;
  dequantize : QTensor -> FTensor;
  py_float : pyval Packed -> result float;
  py_int : pyval Packed -> result Z;
  default_float : float -> float;
  calculate_qparams : Observer -> float * Z;
  fuse_conv_bn_weights :
    FTensor -> option FTensor -> FTensor -> FTensor -> float -> FTensor -> FTensor ->
    FTensor * FTensor
}.

(** Python's [%] and [//] on ints: floor division, an error on a zero
    divisor. *)
Definition py_mod (a b : Z) : result Z :=
  if b =? 0 then inl ZeroDivisionError else inr (a mod b).

Definition py_floordiv (a b : Z) : result Z :=
  if b =? 0 then inl ZeroDivisionError else inr (a / b).

Section Monad.

Context `{Backend}.

(** ** The log of calls to the collaborators *)

Inductive event :=
| call_empty_affine_quantized (size : list Z) (scale : float) (zero_point : Z) (dt : dtype)
| call_conv_prepack (w : QTensor) (stride padding dilation : Z * Z) (groups : Z)
| call_conv_unpack (p : Packed)
| call_conv2d (input : QTensor) (p : Packed) (bias : option QTensor)
    (stride padding dilation : Z * Z) (groups : Z) (scale : float) (zero_point : Z)
| call_quantize_linear (x : FTensor) (scale : float) (zero_point : Z) (dt : dtype)
| call_dequantize (q : QTensor)
| call_observe (o : Observer) (x : FTensor)
| call_calculate_qparams (o : Observer)
| call_fuse_conv_bn_weights (w : FTensor) (b : option FTensor) (bn : BatchNorm)
| call_Module_save_to_state_dict (destination : gmap string (pyval Packed)) (prefix : string)
| call_Module_load_from_state_dict (state_dict : gmap string (pyval Packed)) (prefix : string).

(** ** The monad: an object mutated in place, the log, exceptions *)

Record world (S : Type) := World { obj : S; calls : list event }.
Arguments World {S} obj calls.
Arguments obj {S} w.
Arguments calls {S} w.

(** A computation on an object of type [S]: it returns a value or raises,
    and in both cases leaves the object and the log as they are at that
    moment. *)
Definition M (S A : Type) : Type := world S -> result A * world S.

Definition ret {S A} (a : A) : M S A := fun w => (inr a, w).

Definition bind {S A B} (m : M S A) (k : A -> M S B) : M S B :=
  fun w =>
    match m w with
    | (inl e, w') => (inl e, w')
    | (inr a, w') => k a w'
    end.

Definition raise {S A} (e : exn) : M S A := fun w => (inl e, w).

Definition lift {S A} (r : result A) : M S A := fun w => (r, w).

Definition get {S} : M S S := fun w => (inr (obj w), w).

Definition modify {S} (f : S -> S) : M S unit :=
  fun w => (inr tt, World (f (obj w)) (calls w)).

Definition call {S} (e : event) : M S unit :=
  fun w => (inr tt, World (obj w) (calls w ++ [e])).

(** [assert cond, msg] *)
Definition assert {S} (cond : bool) (msg : string) : M S unit :=
  if cond then ret tt else raise (AssertionError msg).

(** Reading an attribute that may not have been assigned. *)
Definition getattr {S A} (name : string) (a : option A) : M S A :=
  match a with
  | Some x => ret x
  | None => raise (AttributeError name)
  end.

(** A computation on a part of the object. *)
Definition zoom {S T A} (proj : S -> T) (upd : T -> S -> S) (m : M T A) : M S A :=
  fun w =>
    let '(r, w') := m (World (proj (obj w)) (calls w)) in
    (r, World (upd (obj w') (obj w)) (calls w')).

(** A computation on an object held in a local variable: it yields its
    value and the object as it has become. *)
Definition local {S T A} (o : T) (m : M T A) : M S (A * T) :=
  fun w =>
    let '(r, w') := m (World o (calls w)) in
    (match r with
     | inl e => inl e
     | inr a => inr (a, obj w')
     end, World (obj w) (calls w')).

End Monad.

Arguments World {_ S} obj calls.
Arguments obj {_ S} w.
Arguments calls {_ S} w.

Notation "'let*' x ':=' m 'in' k" := (bind m (fun x => k))
  (at level 10, x pattern, m at level 100, k at level 200).
Notation "m ';;' k" := (bind m (fun _ => k))
  (at level 100, k at level 200, right associativity).

(** ** The quantized module *)

Section Conv2d.

Context `{Backend}.

(** The attributes of a [Conv2d] object, as [__init__] assigns them.
    [_packed_weight] is [None] until [set_weight] has run for the first
    time.  [bias] holds whatever was assigned to it: [PyNone], a quantized
    tensor, or any value taken from a state dictionary.

    The module registers no parameter and no buffer with its base class
    [torch.nn.Module]: every attribute it assigns is a plain tensor, number,
    tuple or string.  The base class's registries are therefore empty and
    are not part of the record. *)
Record Conv2d := mkConv2d {
  in_channels : Z;
  out_channels : Z;
  kernel_size : Z * Z;
  stride : Z * Z;
  padding : Z * Z;
  dilation : Z * Z;
  transposed : bool;
  output_padding : Z;
  groups : Z;
  padding_mode : string;
  _packed_weight : option Packed;
  weight_scale : float;
  bias : pyval Packed;
  scale : float;
  zero_point : Z
}.

(** Assignments to single attributes: [self._packed_weight = p] and so
    on. *)
Definition set__packed_weight (p : Packed) (self : Conv2d) : Conv2d :=
  mkConv2d (in_channels self) (out_channels self) (kernel_size self) (stride self)
    (padding self) (dilation self) (transposed self) (output_padding self)
    (groups self) (padding_mode self)
    (Some p) (weight_scale self) (bias self) (scale self) (zero_point self).

Definition set_weight_scale (s : float) (self : Conv2d) : Conv2d :=
  mkConv2d (in_channels self) (out_channels self) (kernel_size self) (stride self)
    (padding self) (dilation self) (transposed self) (output_padding self)
    (groups self) (padding_mode self)
    (_packed_weight self) s (bias self) (scale self) (zero_point self).

Definition set_bias (b : pyval Packed) (self : Conv2d) : Conv2d :=
  mkConv2d (in_channels self) (out_channels self) (kernel_size self) (stride self)
    (padding self) (dilation self) (transposed self) (output_padding self)
    (groups self) (padding_mode self)
    (_packed_weight self) (weight_scale self) b (scale self) (zero_point self).

Definition set_scale (s : float) (self : Conv2d) : Conv2d :=
  mkConv2d (in_channels self) (out_channels self) (kernel_size self) (stride self)
    (padding self) (dilation self) (transposed self) (output_padding self)
    (groups self) (padding_mode self)
    (_packed_weight self) (weight_scale self) (bias self) s (zero_point self).

Definition set_zero_point (z : Z) (self : Conv2d) : Conv2d :=
  mkConv2d (in_channels self) (out_channels self) (kernel_size self) (stride self)
    (padding self) (dilation self) (transposed self) (output_padding self)
    (groups self) (padding_mode self)
    (_packed_weight self) (weight_scale self) (bias self) (scale self) z.

(** The two permutations of the module: NCHW to NHWC and back. *)
Definition to_NHWC : list nat := [0; 2; 3; 1]%nat.
Definition to_NCHW : list nat := [0; 3; 1; 2]%nat.

(** [set_weight(self, w)] *)
Definition set_weight (w : QTensor) : M Conv2d unit :=
  let* self := get in
  let* w_nhwc := lift (permute to_NHWC w) in
  call (call_conv_prepack w_nhwc (stride self) (padding self) (dilation self)
          (groups self));;
  let* p := lift (conv_prepack w_nhwc (stride self) (padding self) (dilation self)
                    (groups self)) in
  modify (set__packed_weight p);;
  modify (set_weight_scale (q_scale w)).

(** [weight(self)] *)
Definition weight : M Conv2d QTensor :=
  let* self := get in
  let* p := getattr "_packed_weight" (_packed_weight self) in
  call (call_conv_unpack p);;
  let* w_nhwc := lift (conv_unpack p) in
  lift (permute to_NCHW w_nhwc).

(** The per-call bias of [forward]: [None] stays [None], a quantized
    tensor is dequantized and quantized again with the scale of this call;
    any other value has no [dequantize]. *)
Definition requantize_bias (self : Conv2d) (input : QTensor)
  : M Conv2d (option QTensor) :=
  match bias self with
  | PyNone => ret None
  | PyQTensor b =>
      call (call_dequantize b);;
      let x := dequantize b in
      let s := (weight_scale self * q_scale input)%float in
      call (call_quantize_linear x s 0 qint32);;
      let* qb := lift (quantize_linear x s 0 qint32) in
      ret (Some qb)
  | _ => raise (AttributeError "dequantize")
  end.

(** [forward(self, input)] *)
Definition forward (input : QTensor) : M Conv2d QTensor :=
  let* self := get in
  if negb (Nat.eqb (length (shape input)) 4) then
    raise (ValueError "Input shape must be `(N, C, H, W)`!")
  else
    let* bias := requantize_bias self input in
    let* input_nhwc := lift (permute to_NHWC input) in
    let* p := getattr "_packed_weight" (_packed_weight self) in
    call (call_conv2d input_nhwc p bias (stride self) (padding self) (dilation self)
            (groups self) (scale self) (zero_point self));;
    let* output := lift (conv2d input_nhwc p bias (stride self) (padding self)
                           (dilation self) (groups self) (scale self)
                           (zero_point self)) in
    lift (permute to_NCHW output).

(** [__init__(self, in_channels, out_channels, kernel_size, stride,
    padding, dilation, groups, bias, padding_mode)]: the call
    [Conv2d(...)], which yields the new object or raises.  The base
    class's [__init__] only creates the empty registries. *)
Definition __init__ {S} (in_channels out_channels : Z)
    (kernel_size stride padding dilation : int_or_pair) (groups : Z)
    (bias : bool) (padding_mode : string) : M S Conv2d :=
  if negb (String.eqb padding_mode "zeros") then
    raise (NotImplementedError
             "Currently only zero-padding is supported by quantized conv")
  else
    let* r_in := lift (py_mod in_channels groups) in
    if negb (r_in =? 0) then
      raise (ValueError "in_channels must be divisible by groups")
    else
      let* r_out := lift (py_mod out_channels groups) in
      if negb (r_out =? 0) then
        raise (ValueError "out_channels must be divisible by groups")
      else
        let kernel_size := _pair kernel_size in
        let* per_group := lift (py_floordiv in_channels groups) in
        let size := [out_channels; per_group; fst kernel_size; snd kernel_size] in
        call (call_empty_affine_quantized size 1 0 qint8);;
        let* qweight := lift (_empty_affine_quantized size 1 0 qint8) in
        let self :=
          mkConv2d in_channels out_channels kernel_size (_pair stride)
            (_pair padding) (_pair dilation) false 0 groups padding_mode
            None 1 PyNone 1 0 in
        let* r := local self (set_weight qweight) in
        let self := snd r in
        let* b :=
          (if bias then
             call (call_empty_affine_quantized [out_channels] 1 0 qint32);;
             let* qbias :=
               lift (_empty_affine_quantized [out_channels] 1 0 qint32) in
             ret (PyQTensor qbias)
           else ret PyNone) in
        ret (set_zero_point 0 (set_scale 1 (set_bias b self))).

(** *** Serialization *)

(** A method that takes a dictionary works on the pair of the module and
    the caller's dictionary, which it mutates in place. *)
Definition on_self {A} (m : M Conv2d A)
  : M (Conv2d * gmap string (pyval Packed)) A :=
  zoom fst (fun self s => (self, snd s)) m.

(** [d[key] = v] *)
Definition setitem (key : string) (v : pyval Packed)
  : M (Conv2d * gmap string (pyval Packed)) unit :=
  modify (fun s => (fst s, <[key := v]> (snd s))).

(** [d[key]] *)
Definition getitem (key : string)
  : M (Conv2d * gmap string (pyval Packed)) (pyval Packed) :=
  let* s := get in
  match snd s !! key with
  | Some v => ret v
  | None => raise (KeyError key)
  end.

(** [d.pop(key)] *)
Definition pop (key : string)
  : M (Conv2d * gmap string (pyval Packed)) (pyval Packed) :=
  let* v := getitem key in
  modify (fun s => (fst s, delete key (snd s)));;
  ret v.

(** [Module._save_to_state_dict] copies the registered parameters and
    buffers into the destination; this module has none, so nothing is
    written.  The delegation is logged with the dictionary it receives. *)
Definition Module_save_to_state_dict (prefix : string) (keep_vars : bool)
  : M (Conv2d * gmap string (pyval Packed)) unit :=
  let* s := get in
  call (call_Module_save_to_state_dict (snd s) prefix).

(** [Module._load_from_state_dict] with [strict = False] copies the
    entries of the registered parameters and buffers out of the
    dictionary and leaves the dictionary as it is; this module has none.
    The delegation is logged with the dictionary it receives. *)
Definition Module_load_from_state_dict (prefix : string)
  : M (Conv2d * gmap string (pyval Packed)) unit :=
  let* s := get in
  call (call_Module_load_from_state_dict (snd s) prefix).

(** [torch.tensor(x)] of a float and of an int. *)
Definition torch_tensor_float (x : float) : pyval Packed :=
  PyTensorF (default_float x).

Definition torch_tensor_int (n : Z) : pyval Packed := PyTensorI n.

(** [_save_to_state_dict(self, destination, prefix, keep_vars)] *)
Definition _save_to_state_dict (prefix : string) (keep_vars : bool)
  : M (Conv2d * gmap string (pyval Packed)) unit :=
  Module_save_to_state_dict prefix keep_vars;;
  let* w := on_self weight in
  setitem (prefix ++ "weight") (PyQTensor w);;
  let* s := get in
  setitem (prefix ++ "scale") (torch_tensor_float (scale (fst s)));;
  setitem (prefix ++ "zero_point") (torch_tensor_int (zero_point (fst s)));;
  setitem (prefix ++ "bias") (bias (fst s)).

(** [__getstate__(self)]: the state tuple, as the list of its fields. *)
Definition __getstate__ : M Conv2d (list (pyval Packed)) :=
  let* self := get in
  let* w := weight in
  ret [ PyInt (in_channels self);
        PyInt (out_channels self);
        PyTuple2 (fst (kernel_size self)) (snd (kernel_size self));
        PyTuple2 (fst (stride self)) (snd (stride self));
        PyTuple2 (fst (padding self)) (snd (padding self));
        PyTuple2 (fst (dilation self)) (snd (dilation self));
        PyBool (transposed self);
        PyInt (output_padding self);
        PyInt (groups self);
        PyStr (padding_mode self);
        PyQTensor w;
        bias self;
        PyFloat (scale self);
        PyInt (zero_point self) ].

(** *** Deserialization *)

(** [set_weight(v)] for a value taken from a dictionary: only a quantized
    tensor can be permuted and packed. *)
Definition set_weight_value (v : pyval Packed) : M Conv2d unit :=
  match v with
  | PyQTensor w => set_weight w
  | PyTensorF _ | PyTensorI _ | PyPacked _ =>
      raise (RuntimeError "number of dims don't match in permute")
  | _ => raise (AttributeError "permute")
  end.

(** [_load_from_state_dict(self, state_dict, prefix, local_metadata,
    strict, missing_keys, unexpected_keys, error_msgs)]: the last five
    arguments are only handed on to the base class. *)
Definition _load_from_state_dict (prefix : string)
  : M (Conv2d * gmap string (pyval Packed)) unit :=
  let* w := getitem (prefix ++ "weight") in
  on_self (set_weight_value w);;
  pop (prefix ++ "weight");;
  let* b := getitem (prefix ++ "bias") in
  on_self (modify (set_bias b));;
  pop (prefix ++ "bias");;
  let* v := getitem (prefix ++ "scale") in
  let* s := lift (py_float v) in
  on_self (modify (set_scale s));;
  pop (prefix ++ "scale");;
  let* v := getitem (prefix ++ "zero_point") in
  let* z := lift (py_int v) in
  on_self (modify (set_zero_point z));;
  pop (prefix ++ "zero_point");;
  Module_load_from_state_dict prefix.

(** *** Conversion from a float module *)

(** The class [from_float] is called on: [Conv2d] itself or a subclass,
    with its [_FLOAT_MODULE] and its name. *)
Record QuantizedClass := mkQuantizedClass {
  _FLOAT_MODULE : module_class;
  __name__ : string
}.

Definition Conv2d_class : QuantizedClass := mkQuantizedClass nn_Conv2d "Conv2d".

Definition class_name (c : module_class) : string :=
  match c with
  | nn_Conv2d => "Conv2d"
  | nni_ConvReLU2d => "ConvReLU2d"
  | nniqat_ConvBn2d => "ConvBn2d"
  | other_class name => name
  end.

(** [hasattr(mod, name)] *)
Definition hasattr {A} (a : option A) : bool :=
  match a with
  | Some _ => true
  | None => false
  end.

(** [x is not None] *)
Definition is_not_None {A} (a : option A) : bool :=
  match a with
  | Some _ => true
  | None => false
  end.

(** [mod[i]] *)
Definition getchild {S} (mod_ : FloatModule) (i : nat) : M S FloatModule :=
  match nth_error (fm_children mod_) i with
  | Some c => ret c
  | None => raise IndexError
  end.

(** The first part of [from_float], up to the observers: it yields the
    module that the weight is taken from, the weight observer and the
    activation observer.  The caller's module is the object of the
    computation: fusing a [ConvBn2d] assigns to its [weight] and
    [bias]. *)
Definition from_float_observers (cls : QuantizedClass)
  : M FloatModule (FloatModule * Observer * Observer) :=
  let* mod_ := get in
  match fm_weight_fake_quant mod_ with
  | Some weight_fake_quant =>
      (if module_class_eqb (fm_type mod_) nniqat_ConvBn2d then
         let* bn := getattr "running_mean" (fm_bn mod_) in
         call (call_fuse_conv_bn_weights (fm_weight mod_) (fm_bias mod_) bn);;
         let fused :=
           fuse_conv_bn_weights (fm_weight mod_) (fm_bias mod_) (running_mean bn)
             (running_var bn) (eps bn) (gamma bn) (beta bn) in
         modify (fm_set_weight_bias (fst fused) (Some (snd fused)))
       else ret tt);;
      let* mod_ := get in
      assert (hasattr (fm_observer mod_))
        "Input QAT module must have observer attached";;
      let weight_observer := weight_fake_quant in
      let* activation_observer := getattr "observer" (fm_observer mod_) in
      ret (mod_, weight_observer, activation_observer)
  | None =>
      assert (module_class_eqb (fm_type mod_) (_FLOAT_MODULE cls))
        (" nnq." ++ __name__ cls ++ ".from_float only works for "
           ++ class_name (_FLOAT_MODULE cls));;
      assert (hasattr (fm_qconfig mod_))
        "Input float module must have qconfig defined";;
      let* r :=
        (if module_class_eqb (fm_type mod_) nni_ConvReLU2d then
           let* relu := getchild mod_ 1 in
           let* activation_observer := getattr "observer" (fm_observer relu) in
           let* conv := getchild mod_ 0 in
           ret (conv, activation_observer)
         else
           let* activation_observer := getattr "observer" (fm_observer mod_) in
           ret (mod_, activation_observer)) in
      let mod_ := fst r in
      let activation_observer := snd r in
      let* qconfig := getattr "qconfig" (fm_qconfig mod_) in
      let weight_observer := qconfig_weight qconfig in
      call (call_observe weight_observer (fm_weight mod_));;
      let weight_observer := observe weight_observer (fm_weight mod_) in
      ret (mod_, weight_observer, activation_observer)
  end.

(** The second part of [from_float], from [calculate_qparams] on. *)
Definition from_float_convert (mod_ : FloatModule)
    (weight_observer activation_observer : Observer) : M FloatModule Conv2d :=
  call (call_calculate_qparams activation_observer);;
  let act := calculate_qparams activation_observer in
  let act_scale := fst act in
  let act_zp := snd act in
  assert (dtype_eqb (obs_dtype weight_observer) qint8)
    "Weight observer must have a dtype of qint8";;
  call (call_calculate_qparams weight_observer);;
  let wt := calculate_qparams weight_observer in
  let wt_scale := fst wt in
  let wt_zp := snd wt in
  let bias_scale := (act_scale / 65536)%float in
  call (call_quantize_linear (fm_weight mod_) wt_scale wt_zp qint8);;
  let* qweight := lift (quantize_linear (fm_weight mod_) wt_scale wt_zp qint8) in
  let* qconv :=
    __init__ (fm_in_channels mod_) (fm_out_channels mod_) (fm_kernel_size mod_)
      (fm_stride mod_) (fm_padding mod_) (fm_dilation mod_) (fm_groups mod_)
      (is_not_None (fm_bias mod_)) (fm_padding_mode mod_) in
  let* r := local qconv (set_weight qweight) in
  let qconv := snd r in
  let* qbias :=
    match fm_bias mod_ with
    | Some b =>
        call (call_quantize_linear b bias_scale 0 qint32);;
        let* qb := lift (quantize_linear b bias_scale 0 qint32) in
        ret (PyQTensor qb)
    | None => ret PyNone
    end in
  ret (set_zero_point act_zp (set_scale act_scale (set_bias qbias qconv))).

(** [from_float(cls, mod)] *)
Definition from_float (cls : QuantizedClass) : M FloatModule Conv2d :=
  let* r := from_float_observers cls in
  from_float_convert (fst (fst r)) (snd (fst r)) (snd r).

End Conv2d.

Arguments set_weight : simpl never.
Arguments weight : simpl never.
Arguments __init__ : simpl never.
Arguments from_float_observers : simpl never.
Arguments from_float_convert : simpl never.

(** ** The state tuple and [__setstate__] *)

(** The state that [__setstate__] takes, at the types its type comment
    declares:
    [Tuple[int, int, Tuple[int, int], Tuple[int, int], Tuple[int, int],
    Tuple[int, int], bool, int, int, str, Tensor, Optional[Tensor], float,
    int]].  The weight is a quantized tensor, as [set_weight] needs it. *)
Record State := mkState {
  state_in_channels : Z;
  state_out_channels : Z;
  state_kernel_size : Z * Z;
  state_stride : Z * Z;
  state_padding : Z * Z;
  state_dilation : Z * Z;
  state_transposed : bool;
  state_output_padding : Z;
  state_groups : Z;
  state_padding_mode : string;
  state_weight : QTensor;
  state_bias : option QTensor;
  state_scale : float;
  state_zero_point : Z
}.

Section SetState.

Context `{Backend}.

(** Assignments to the configuration attributes. *)
Definition set_in_channels (x : Z) (self : Conv2d) : Conv2d :=
  mkConv2d x (out_channels self) (kernel_size self) (stride self)
    (padding self) (dilation self) (transposed self) (output_padding self)
    (groups self) (padding_mode self) (_packed_weight self) (weight_scale self)
    (bias self) (scale self) (zero_point self).

Definition set_out_channels (x : Z) (self : Conv2d) : Conv2d :=
  mkConv2d (in_channels self) x (kernel_size self) (stride self)
    (padding self) (dilation self) (transposed self) (output_padding self)
    (groups self) (padding_mode self) (_packed_weight self) (weight_scale self)
    (bias self) (scale self) (zero_point self).

Definition set_kernel_size (x : Z * Z) (self : Conv2d) : Conv2d :=
  mkConv2d (in_channels self) (out_channels self) x (stride self)
    (padding self) (dilation self) (transposed self) (output_padding self)
    (groups self) (padding_mode self) (_packed_weight self) (weight_scale self)
    (bias self) (scale self) (zero_point self).

Definition set_stride (x : Z * Z) (self : Conv2d) : Conv2d :=
  mkConv2d (in_channels self) (out_channels self) (kernel_size self) x
    (padding self) (dilation self) (transposed self) (output_padding self)
    (groups self) (padding_mode self) (_packed_weight self) (weight_scale self)
    (bias self) (scale self) (zero_point self).

Definition set_padding (x : Z * Z) (self : Conv2d) : Conv2d :=
  mkConv2d (in_channels self) (out_channels self) (kernel_size self) (stride self)
    x (dilation self) (transposed self) (output_padding self)
    (groups self) (padding_mode self) (_packed_weight self) (weight_scale self)
    (bias self) (scale self) (zero_point self).

Definition set_dilation (x : Z * Z) (self : Conv2d) : Conv2d :=
  mkConv2d (in_channels self) (out_channels self) (kernel_size self) (stride self)
    (padding self) x (transposed self) (output_padding self)
    (groups self) (padding_mode self) (_packed_weight self) (weight_scale self)
    (bias self) (scale self) (zero_point self).

Definition set_transposed (x : bool) (self : Conv2d) : Conv2d :=
  mkConv2d (in_channels self) (out_channels self) (kernel_size self) (stride self)
    (padding self) (dilation self) x (output_padding self)
    (groups self) (padding_mode self) (_packed_weight self) (weight_scale self)
    (bias self) (scale self) (zero_point self).

Definition set_output_padding (x : Z) (self : Conv2d) : Conv2d :=
  mkConv2d (in_channels self) (out_channels self) (kernel_size self) (stride self)
    (padding self) (dilation self) (transposed self) x
    (groups self) (padding_mode self) (_packed_weight self) (weight_scale self)
    (bias self) (scale self) (zero_point self).

Definition set_groups (x : Z) (self : Conv2d) : Conv2d :=
  mkConv2d (in_channels self) (out_channels self) (kernel_size self) (stride self)
    (padding self) (dilation self) (transposed self) (output_padding self)
    x (padding_mode self) (_packed_weight self) (weight_scale self)
    (bias self) (scale self) (zero_point self).

Definition set_padding_mode (x : string) (self : Conv2d) : Conv2d :=
  mkConv2d (in_channels self) (out_channels self) (kernel_size self) (stride self)
    (padding self) (dilation self) (transposed self) (output_padding self)
    (groups self) x (_packed_weight self) (weight_scale self)
    (bias self) (scale self) (zero_point self).

(** An [Optional[Tensor]] as an untyped value. *)
Definition optional_tensor (b : option QTensor) : pyval Packed :=
  match b with
  | Some t => PyQTensor t
  | None => PyNone
  end.

(** A state as the tuple of its fields, in the order of [__getstate__]. *)
Definition fields_of (state : State) : list (pyval Packed) :=
  [ PyInt (state_in_channels state);
    PyInt (state_out_channels state);
    PyTuple2 (fst (state_kernel_size state)) (snd (state_kernel_size state));
    PyTuple2 (fst (state_stride state)) (snd (state_stride state));
    PyTuple2 (fst (state_padding state)) (snd (state_padding state));
    PyTuple2 (fst (state_dilation state)) (snd (state_dilation state));
    PyBool (state_transposed state);
    PyInt (state_output_padding state);
    PyInt (state_groups state);
    PyStr (state_padding_mode state);
    PyQTensor (state_weight state);
    optional_tensor (state_bias state);
    PyFloat (state_scale state);
    PyInt (state_zero_point state) ].

(** [__setstate__(self, state)] *)
Definition __setstate__ (state : State) : M Conv2d unit :=
  modify (set_in_channels (state_in_channels state));;
  modify (set_out_channels (state_out_channels state));;
  modify (set_kernel_size (state_kernel_size state));;
  modify (set_stride (state_stride state));;
  modify (set_padding (state_padding state));;
  modify (set_dilation (state_dilation state));;
  modify (set_transposed (state_transposed state));;
  modify (set_output_padding (state_output_padding state));;
  modify (set_groups (state_groups state));;
  modify (set_padding_mode (state_padding_mode state));;
  set_weight (state_weight state);;
  modify (set_bias (optional_tensor (state_bias state)));;
  modify (set_scale (state_scale state));;
  modify (set_zero_point (state_zero_point state)).

(** The configuration of a state, assigned to a module: what the first
    ten assignments of [__setstate__] leave. *)
Definition with_config (state : State) (self : Conv2d) : Conv2d :=
  mkConv2d (state_in_channels state) (state_out_channels state)
    (state_kernel_size state) (state_stride state) (state_padding state)
    (state_dilation state) (state_transposed state) (state_output_padding state)
    (state_groups state) (state_padding_mode state)
    (_packed_weight self) (weight_scale self) (bias self) (scale self)
    (zero_point self).

(** The calls that [forward] may make, and the call of the kernel. *)
Definition forward_call (e : event) : bool :=
  match e with
  | call_dequantize _
  | call_quantize_linear _ _ _ _
  | call_conv2d _ _ _ _ _ _ _ _ _ => true
  | _ => false
  end.

Definition kernel_call (e : event) : bool :=
  match e with
  | call_conv2d _ _ _ _ _ _ _ _ _ => true
  | _ => false
  end.

(** Two modules have the same configuration. *)
Definition same_config (a b : Conv2d) : Prop :=
  in_channels a = in_channels b /\ out_channels a = out_channels b /\
  kernel_size a = kernel_size b /\ stride a = stride b /\
  padding a = padding b /\ dilation a = dilation b /\
  transposed a = transposed b /\ output_padding a = output_padding b /\
  groups a = groups b /\ padding_mode a = padding_mode b.

End SetState.

Arguments __setstate__ : simpl never.

(** ** Quantization arithmetic *)

(** The integer range of a quantized element type. *)
Definition dtype_range (dt : dtype) : Z * Z :=
  match dt with
  | qint8 => (-128, 127)
  | quint8 => (0, 255)
  | qint32 => (-2147483648, 2147483647)
  end.

Definition clamp (dt : dtype) (n : Z) : Z :=
  Z.max (fst (dtype_range dt)) (Z.min (snd (dtype_range dt)) n).

(** The integer nearest to a float, ties to even; a float that is not
    finite has none and is sent to 0. *)
Definition round_half_even (x : float) : Z :=
  match Prim2SF x with
  | S754_finite s m e =>
      let magnitude :=
        if 0 <=? e then Z.pos m * 2 ^ e
        else
          let d := 2 ^ (- e) in
          let q := Z.pos m / d in
          match 2 * (Z.pos m mod d) ?= d with
          | Lt => q
          | Gt => q + 1
          | Eq => if Z.even q then q else q + 1
          end in
      if s then - magnitude else magnitude
  | _ => 0
  end.

(** The integer part of a float, as Python's [int] takes it. *)
Definition truncate (x : float) : Z :=
  match Prim2SF x with
  | S754_finite s m e =>
      let magnitude := if 0 <=? e then Z.pos m * 2 ^ e else Z.pos m / 2 ^ (- e) in
      if s then - magnitude else magnitude
  | _ => 0
  end.

(** The float of an integer (of less than 63 bits). *)
Definition float_of_Z (n : Z) : float :=
  if n <? 0 then (- PrimFloat.of_uint63 (Uint63.of_Z (- n)))%float
  else PrimFloat.of_uint63 (Uint63.of_Z n).

(** Modelled from the spec: section 4.1 gives [quantize] as "applies
    round(real/scale) + zero_point, clamps to dtype range"; the tensor
    library's own code is not part of this module. *)
Definition quantize_value (scale : float) (zero_point : Z) (dt : dtype) (x : float) : Z :=
  clamp dt (round_half_even (x / scale)%float + zero_point).

(** Modelled from the spec: section 3 gives the affine map as
    "real_value = scale × (quantized_value − zero_point)". *)
Definition dequantize_value (scale : float) (zero_point : Z) (q : Z) : float :=
  (scale * float_of_Z (q - zero_point))%float.

(** The positions in the storage of the elements of a view, in row-major
    order of their indices. *)
Fixpoint positions (dims : list (Z * Z)) (offset : Z) : list Z :=
  match dims with
  | nil => [offset]
  | (size, stride) :: dims' =>
      flat_map (fun i => positions dims' (offset + Z.of_nat i * stride))
        (seq 0 (Z.to_nat size))
  end.

(** The strides of a contiguous tensor of a given shape. *)
Fixpoint contiguous (size : list Z) : list (Z * Z) :=
  match size with
  | nil => nil
  | n :: size' => (n, fold_right Z.mul 1 size') :: contiguous size'
  end.

Definition numel (size : list Z) : nat := Z.to_nat (fold_right Z.mul 1 size).

(** Modelled from the spec: [quantize] and [dequantize] of whole tensors,
    element by element. *)
Definition quantize_tensor (x : FTensor) (scale : float) (zero_point : Z) (dt : dtype)
  : QTensor :=
  mkQTensor (contiguous (f_shape x)) 0
    (map (quantize_value scale zero_point dt) (f_data x)) scale zero_point dt.

Definition dequantize_tensor (q : QTensor) : FTensor :=
  mkFTensor (shape q)
    (map (fun pos => dequantize_value (q_scale q) (q_zero_point q)
                       (nth (Z.to_nat pos) (q_storage q) 0))
       (positions (q_dims q) (q_offset q))).

(** ** Weight fusion *)

(** Modelled from the spec: section 4.2 gives, for each output channel
    [c], "scale_c = gamma_c / sqrt(running_var_c + eps)";
    [fuse_conv_bn_weights] itself is not part of this module. *)
Definition fuse_scale (running_var : FTensor) (eps : float) (gamma : FTensor)
  : list float :=
  map (fun gv => (fst gv / PrimFloat.sqrt (snd gv + eps))%float)
    (combine (f_data gamma) (f_data running_var)).

(** Modelled from the spec: section 4.2 gives [fuse] as
    "fused_weight[c] = weight[c] * scale_c" and
    "fused_bias[c] = (bias[c] - running_mean_c) * scale_c + beta_c".  The
    output channel is the first dimension of the weight; a bias that is
    [None] counts as zero. *)
Definition fuse (w : FTensor) (b : option FTensor)
    (running_mean running_var : FTensor) (eps : float) (gamma beta : FTensor)
  : FTensor * FTensor :=
  let scales := fuse_scale running_var eps gamma in
  let channels := length scales in
  let per_channel := (length (f_data w) / channels)%nat in
  let bias :=
    match b with
    | Some b => f_data b
    | None => repeat 0%float channels
    end in
  (mkFTensor (f_shape w)
     (map (fun ix => (snd ix * nth (fst ix / per_channel)%nat scales 1)%float)
        (combine (seq 0 (length (f_data w))) (f_data w))),
   mkFTensor (f_shape running_mean)
     (map (fun r =>
             ((fst (fst (fst r)) - snd (fst (fst r))) * snd (fst r) + snd r)%float)
        (combine (combine (combine bias (f_data running_mean)) scales)
           (f_data beta)))).

(** ** A reference backend *)

(** A backend to evaluate the module on concrete inputs.  The packed
    weight is the tensor together with the structure parameters it was
    packed with, so that unpacking gives the tensor back.  Quantization is
    the arithmetic above.  The kernel's arithmetic is outside this module:
    the reference kernel only yields a tensor of the input's layout with
    the output parameters.  The parameters an observer reports are the
    argument [qparams]. *)
Definition reference_conv2d (input : QTensor) (scale : float) (zero_point : Z)
  : QTensor :=
  mkQTensor (q_dims input) 0 (repeat 0 (numel (shape input))) scale zero_point quint8.

(** The tensor library allocates no tensor with a negative size. *)
Definition reference_empty_affine_quantized (size : list Z) (scale : float)
    (zero_point : Z) (dt : dtype) : result QTensor :=
  if forallb (fun n => 0 <=? n) size then
    inr (mkQTensor (contiguous size) 0 (repeat 0 (numel size)) scale zero_point dt)
  else
    inl (RuntimeError "Trying to create tensor with negative dimension").

Definition reference_float {P} (v : pyval P) : result float :=
  match v with
  | PyFloat x | PyTensorF x => inr x
  | PyInt n | PyTensorI n => inr (float_of_Z n)
  | PyBool b => inr (if b then 1 else 0)%float
  | _ => inl (TypeError "float() argument must be a string or a number")
  end.

Definition reference_int {P} (v : pyval P) : result Z :=
  match v with
  | PyFloat x | PyTensorF x => inr (truncate x)
  | PyInt n | PyTensorI n => inr n
  | PyBool b => inr (if b then 1 else 0)
  | _ => inl (TypeError "int() argument must be a string or a number")
  end.

Definition reference_backend (qparams : Observer -> float * Z) : Backend := {|
  Packed := QTensor * (Z * Z) * (Z * Z) * (Z * Z) * Z;
  conv_prepack w stride padding dilation groups :=
    inr (w, stride, padding, dilation, groups);
  conv_unpack p := inr (fst (fst (fst (fst p))));
  conv2d input p bias stride padding dilation groups scale zero_point :=
    inr (reference_conv2d input scale zero_point);
  _empty_affine_quantized := reference_empty_affine_quantized;
  quantize_linear x scale zero_point dt := inr (quantize_tensor x scale zero_point dt);
  dequantize := dequantize_tensor;
  py_float := reference_float;
  py_int := reference_int;
  default_float x := x;
  calculate_qparams := qparams;
  fuse_conv_bn_weights := fuse
|}.

(** ** Vocabulary of the properties *)

Section Vocabulary.

Context `{Backend}.

(** The calls to [quantize_linear] in a log, with their arguments. *)
Definition quantize_calls (l : list event) : list (FTensor * float * Z * dtype) :=
  flat_map (fun e => match e with
                     | call_quantize_linear x s z dt => [(x, s, z, dt)]
                     | _ => []
                     end) l.

(** The calls that quantize a tensor, allocate a quantized tensor or pack
    a weight: the steps that build a quantized module. *)
Definition builds_quantized (e : event) : bool :=
  match e with
  | call_quantize_linear _ _ _ _
  | call_empty_affine_quantized _ _ _ _
  | call_conv_prepack _ _ _ _ _ => true
  | _ => false
  end.

(** The errors that the constructor raises for a configuration it
    refuses. *)
Definition is_config_error (e : exn) : bool :=
  match e with
  | NotImplementedError _ | ValueError _ => true
  | _ => false
  end.

(** The dictionary that a successful [_save_to_state_dict] leaves. *)
Definition saved (self : Conv2d) (w : QTensor) (prefix : string)
    (destination : gmap string (pyval Packed)) : gmap string (pyval Packed) :=
  <[(prefix ++ "bias")%string := bias self]>
    (<[(prefix ++ "zero_point")%string := torch_tensor_int (zero_point self)]>
       (<[(prefix ++ "scale")%string := torch_tensor_float (scale self)]>
          (<[(prefix ++ "weight")%string := PyQTensor w]> destination))).

(** The four keys that [_load_from_state_dict] requires. *)
Definition required (prefix k : string) : Prop :=
  k = (prefix ++ "weight")%string \/ k = (prefix ++ "bias")%string \/
  k = (prefix ++ "scale")%string \/ k = (prefix ++ "zero_point")%string.

(** [d'] is [d] with some of the required keys removed and nothing else
    changed. *)
Definition only_required_removed (prefix : string)
    (d d' : gmap string (pyval Packed)) : Prop :=
  forall k, d' !! k = d !! k \/ (d' !! k = None /\ required prefix k).

End Vocabulary.

(** ** Example data *)

(** An observer subsystem whose weight observers report scale 0.5 and
    zero point 3, and whose activation observers report scale 0.25 and
    zero point 128. *)
Definition example_qparams (o : Observer) : float * Z :=
  match obs_dtype o with
  | qint8 => (0.5%float, 3)
  | _ => (0.25%float, 128)
  end.

Definition example_backend : Backend := reference_backend example_qparams.

(** A calibrated float convolution with one input channel, one output
    channel, a 1x1 kernel and a bias. *)
Definition example_float_module : FloatModule :=
  mkFloatModule nn_Conv2d None (Some (mkObserver quint8 []))
    (Some (mkQConfig (mkObserver qint8 [])))
    (mkFTensor [1; 1; 1; 1] [1.0%float]) (Some (mkFTensor [1] [0.25%float])) None
    1 1 (Pair 1 1) (Pair 1 1) (Pair 0 0) (Pair 1 1) 1 "zeros" [].

(** The same module without bias. *)
Definition example_float_module_no_bias : FloatModule :=
  fm_set_weight_bias (fm_weight example_float_module) None example_float_module.

(** The same module with a weight observer configured for [quint8]. *)
Definition example_float_module_quint8 : FloatModule :=
  mkFloatModule nn_Conv2d None (Some (mkObserver quint8 []))
    (Some (mkQConfig (mkObserver quint8 [])))
    (mkFTensor [1; 1; 1; 1] [1.0%float]) (Some (mkFTensor [1] [0.25%float])) None
    1 1 (Pair 1 1) (Pair 1 1) (Pair 0 0) (Pair 1 1) 1 "zeros" [].


(** A quantized weight of shape [1, 2, 1, 1] (NCHW) with scale 0.01. *)
Definition example_weight : QTensor :=
  mkQTensor [(1, 2); (2, 1); (1, 1); (1, 1)] 0 [5; -3] 0.01 0 qint8.

(** A quantized bias that dequantizes to [10.0]. *)
Definition example_bias : QTensor := mkQTensor [(1, 1)] 0 [10] 1 0 qint32.

(** The packed weight of the reference backend for [example_weight]. *)
Definition example_packed : @Packed example_backend :=
  (mkQTensor [(1, 2); (1, 1); (1, 1); (2, 1)] 0 [5; -3] 0.01 0 qint8,
   (1, 1), (0, 0), (1, 1), 1).

(** A quantized module holding them. *)
Definition example_module : @Conv2d example_backend :=
  mkConv2d 2 1 (1, 1) (1, 1) (0, 0) (1, 1) false 0 1 "zeros"
    (Some example_packed) 0.01 (PyQTensor example_bias) 1 0.

(** Another weight for it, with scale 0.5. *)
Definition example_weight' : QTensor :=
  mkQTensor [(1, 2); (2, 1); (1, 1); (1, 1)] 0 [7; 9] 0.5 0 qint8.

(** An input of shape [1, 2, 1, 1] with scale 0.5, and one of rank 3. *)
Definition example_input : QTensor :=
  mkQTensor [(1, 2); (2, 1); (1, 1); (1, 1)] 0 [20; 30] 0.5 0 quint8.

Definition example_input_rank3 : QTensor :=
  mkQTensor [(2, 1); (1, 1); (1, 1)] 0 [20; 30] 0.5 0 quint8.

(** State dictionaries: a complete one, and one that lacks the bias. *)
Definition example_state_dict : gmap string (pyval (@Packed example_backend)) :=
  <["weight" := PyQTensor example_weight']>
    (<["bias" := PyNone]>
       (<["scale" := PyTensorF 0.25]>
          (<["zero_point" := PyTensorI 128]>
             (<["num_batches_tracked" := PyTensorI 7]> ∅)))).

Definition example_state_dict_no_bias
  : gmap string (pyval (@Packed example_backend)) :=
  <["weight" := PyQTensor example_weight']> ∅.

(** The packed weight of the reference backend for [example_weight']. *)
Definition example_packed' : @Packed example_backend :=
  (mkQTensor [(1, 2); (1, 1); (1, 1); (2, 1)] 0 [7; 9] 0.5 0 qint8,
   (1, 1), (0, 0), (1, 1), 1).

(** [example_module] after [set_weight(example_weight')]. *)
Definition example_module' : @Conv2d example_backend :=
  set_weight_scale 0.5 (set__packed_weight example_packed' example_module).

(** The two parts of [from_float] evaluated on [example_float_module]. *)
Definition example_observed
  : result (FloatModule * Observer * Observer) * world FloatModule :=
  Eval vm_compute in
    @from_float_observers example_backend Conv2d_class
      (World example_float_module []).

Definition example_converted : result (@Conv2d example_backend) * world FloatModule :=
  Eval vm_compute in
    @from_float example_backend Conv2d_class (World example_float_module []).

Definition example_quantized : @Conv2d example_backend :=
  Eval vm_compute in
    match fst example_converted with
    | inr qconv => qconv
    | inl _ => example_module
    end.

(** [example_module] without its bias. *)
Definition example_module_no_bias : @Conv2d example_backend :=
  set_bias PyNone example_module.

(** A weight of rank 3. *)
Definition example_weight_rank3 : QTensor :=
  mkQTensor [(2, 1); (1, 1); (1, 1)] 0 [7; 9] 0.5 0 qint8.

(** [forward] of [example_module] on [example_input], evaluated. *)
Definition example_forward : result QTensor * @world example_backend (@Conv2d example_backend) :=
  Eval vm_compute in @forward example_backend example_input (World example_module []).

Definition example_output : QTensor :=
  Eval vm_compute in
    match fst example_forward with
    | inr output => output
    | inl _ => example_input
    end.

(** [Conv2d(2, 1, 1)] of the reference backend, evaluated. *)
Definition example_constructed : @Conv2d example_backend :=
  Eval vm_compute in
    match fst (@__init__ example_backend unit 2 1 (Int 1) (Int 1) (Int 0) (Int 1) 1
                 true "zeros" (World tt [])) with
    | inr self => self
    | inl _ => example_module
    end.

(** The state of [example_module], as [__getstate__] returns it. *)
Definition example_state : State :=
  mkState 2 1 (1, 1) (1, 1) (0, 0) (1, 1) false 0 1 "zeros" example_weight
    (Some example_bias) 1 0.

(** A state that no constructor call would accept: circular padding, and
    3 input channels in 2 groups. *)
Definition example_state_unchecked : State :=
  mkState 3 1 (1, 1) (2, 2) (0, 0) (1, 1) false 0 2 "circular" example_weight'
    None 0.25 128.

(** A state whose weight has rank 3. *)
Definition example_state_rank3 : State :=
  mkState 3 1 (1, 1) (2, 2) (0, 0) (1, 1) false 0 2 "zeros" example_weight_rank3
    None 0.25 128.

(** A destination that already holds an entry of another module, and a
    state dictionary whose weight has rank 3. *)
Definition example_destination : gmap string (pyval (@Packed example_backend)) :=
  <["fc.weight" := PyTensorF 3]> ∅.

Definition example_state_dict_rank3
  : gmap string (pyval (@Packed example_backend)) :=
  <["weight" := PyQTensor example_weight_rank3]>
    (<["bias" := PyNone]>
       (<["scale" := PyTensorF 0.25]> (<["zero_point" := PyTensorI 128]> ∅))).

(** A sequential float module, of type [ConvReLU2d]. *)
Definition example_conv_relu : FloatModule :=
  mkFloatModule nni_ConvReLU2d None None (Some (mkQConfig (mkObserver qint8 [])))
    (mkFTensor [] []) None None 1 1 (Pair 1 1) (Pair 1 1) (Pair 0 0) (Pair 1 1) 1
    "zeros"
    [example_float_module;
     mkFloatModule (other_class "ReLU") None (Some (mkObserver quint8 [])) None
       (mkFTensor [] []) None None 0 0 (Int 0) (Int 0) (Int 0) (Int 0) 0 "" []].

(** A [ConvBn2d] from quantization-aware training, without a bias of its
    own and without an observer. *)
Definition example_bn : BatchNorm :=
  mkBatchNorm (mkFTensor [1] [0.5%float]) (mkFTensor [1] [1.0%float]) 0
    (mkFTensor [1] [1.0%float]) (mkFTensor [1] [0.25%float]).

Definition example_qat_module : FloatModule :=
  mkFloatModule nniqat_ConvBn2d (Some (mkObserver qint8 [])) None None
    (mkFTensor [1; 1; 1; 1] [1.0%float]) None (Some example_bn)
    1 1 (Pair 1 1) (Pair 1 1) (Pair 0 0) (Pair 1 1) 1 "zeros" [].




(** [example_float_module_quint8] without an observer attached. *)
Definition example_float_module_quint8_no_observer : FloatModule :=
  mkFloatModule nn_Conv2d None None
    (Some (mkQConfig (mkObserver quint8 [])))
    (mkFTensor [1; 1; 1; 1] [1.0%float]) (Some (mkFTensor [1] [0.25%float])) None
    1 1 (Pair 1 1) (Pair 1 1) (Pair 0 0) (Pair 1 1) 1 "zeros" [].

(** * Properties *)

(** ** The two permutations *)

Lemma permute_NHWC_rank4 (t : QTensor) :
  length (shape t) = 4%nat -> exists t', permute to_NHWC t = inr t'.
Proof.
  unfold shape, permute, to_NHWC. rewrite length_map. intros ->. cbn. eauto.
Qed.

(** On a view of rank 4, [0, 3, 1, 2] undoes [0, 2, 3, 1], and the other
    way round. *)
Lemma permute_NHWC_NCHW (t t' : QTensor) :
  permute to_NHWC t = inr t' -> permute to_NCHW t' = inr t.
Proof.
  destruct t as [dims off st sc zp dt]. unfold permute, to_NHWC, to_NCHW.
  cbn [q_dims].
  destruct dims as [|d0 [|d1 [|d2 [|d3 [|d4 dims]]]]]; cbn; try discriminate.
  intros [= <-]. reflexivity.
Qed.

Lemma permute_NCHW_NHWC (t t' : QTensor) :
  permute to_NCHW t = inr t' -> permute to_NHWC t' = inr t.
Proof.
  destruct t as [dims off st sc zp dt]. unfold permute, to_NHWC, to_NCHW.
  cbn [q_dims].
  destruct dims as [|d0 [|d1 [|d2 [|d3 [|d4 dims]]]]]; cbn; try discriminate.
  intros [= <-]. reflexivity.
Qed.

(** The permutation is refused on any other rank. *)
Lemma permute_NHWC_other_rank (t : QTensor) :
  length (shape t) <> 4%nat ->
  permute to_NHWC t = inl (RuntimeError "number of dims don't match in permute").
Proof.
  unfold shape, permute, to_NHWC, is_permutation_of_dims. rewrite length_map.
  intros Hrank. cbn [length].
  destruct (Nat.eqb_spec 4 (length (q_dims t))) as [Heq|Hne];
    [congruence|reflexivity].
Qed.

(** The element of the NHWC view at [n, h, w, c] is the element of the
    NCHW tensor at [n, c, h, w]. *)
Lemma permute_NHWC_elem (t t' : QTensor) (n c h w : Z) :
  permute to_NHWC t = inr t' ->
  q_elem t' [n; h; w; c] = q_elem t [n; c; h; w].
Proof.
  destruct t as [dims off st sc zp dt]. unfold permute, to_NHWC. cbn [q_dims].
  destruct dims as [|[s0 r0] [|[s1 r1] [|[s2 r2] [|[s3 r3] [|d4 dims]]]]];
    cbn; try discriminate.
  intros [= <-]. unfold q_elem. cbn. f_equal. f_equal. lia.
Qed.

(** Unfolding the monad. *)
Ltac run :=
  unfold on_self, zoom, local, getattr, assert, call, modify, get, lift, raise,
    bind, ret in *;
  cbn [obj calls fst snd] in *.

(** ** [set_weight] and [weight] *)

Section Roundtrip.

Context `{Backend}.

(** What [set_weight] does when the backend packs the NHWC view. *)
Lemma set_weight_packs (self : Conv2d) (cs : list event) (w w' : QTensor) (pk : Packed) :
  permute to_NHWC w = inr w' ->
  conv_prepack w' (stride self) (padding self) (dilation self) (groups self) = inr pk ->
  set_weight w (World self cs)
  = (inr tt,
     World (set_weight_scale (q_scale w) (set__packed_weight pk self))
       (cs ++ [call_conv_prepack w' (stride self) (padding self) (dilation self)
                 (groups self)])).
Proof.
  intros Hp Hk. unfold set_weight. run. rewrite Hp. cbn. rewrite Hk. reflexivity.
Qed.

(** A failing [set_weight] leaves the module as it was: the packed
    weight and the cached scale are replaced together or not at all. *)
Lemma set_weight_raises_unchanged (self : Conv2d) (cs : list event) (w : QTensor)
    (e : exn) (st : world Conv2d) :
  set_weight w (World self cs) = (inl e, st) -> obj st = self.
Proof.
  unfold set_weight. run.
  destruct (permute to_NHWC w) as [e1|w']; cbn.
  - intros [= _ <-]. reflexivity.
  - destruct (conv_prepack w' _ _ _ _) as [e2|pk]; cbn.
    + intros [= _ <-]. reflexivity.
    + discriminate.
Qed.

(** What [weight] does on a module holding a packed weight. *)
Lemma weight_unpacks (self : Conv2d) (cs : list event) (pk : Packed) (t w : QTensor) :
  _packed_weight self = Some pk ->
  conv_unpack pk = inr t ->
  permute to_NCHW t = inr w ->
  weight (World self cs) = (inr w, World self (cs ++ [call_conv_unpack pk])).
Proof.
  intros Hpk Hu Hp. unfold weight. run. rewrite Hpk. cbn. rewrite Hu. cbn.
  rewrite Hp. reflexivity.
Qed.

(** C1.  Assume that the backend's [conv_unpack] is the inverse of its
    [conv_prepack].  Then for every module and every quantized tensor [w]
    of rank 4 that the backend packs with the module's stride, padding,
    dilation and groups, [set_weight(w)] succeeds, caches the scale of [w],
    and [weight()] afterwards returns [w] itself: the same view of the same
    integer storage with the same scale, zero point and dtype.  The
    permutation [0,2,3,1] before packing and [0,3,1,2] after unpacking
    cancel. *)
Theorem set_weight_weight_roundtrip
    (unpack_prepack : forall t s p d g pk,
        conv_prepack t s p d g = inr pk -> conv_unpack pk = inr t)
    (self : Conv2d) (cs : list event) (w : QTensor) :
  length (shape w) = 4%nat ->
  (forall w', permute to_NHWC w = inr w' ->
     exists pk, conv_prepack w' (stride self) (padding self) (dilation self)
                  (groups self) = inr pk) ->
  exists st,
    set_weight w (World self cs) = (inr tt, st) /\
    weight_scale (obj st) = q_scale w /\
    fst (weight st) = inr w /\
    obj (snd (weight st)) = obj st.
Proof.
  intros Hrank Hcompat.
  destruct (permute_NHWC_rank4 w Hrank) as [w' Hw'].
  destruct (Hcompat w' Hw') as [pk Hpk].
  eexists. split; [apply (set_weight_packs self cs w w' pk Hw' Hpk)|].
  split; [reflexivity|].
  erewrite weight_unpacks; cbn; eauto using permute_NHWC_NCHW.
Qed.

End Roundtrip.

(** ** [forward] *)

Section Forward.

Context `{Backend}.

(** C6.  For every module and every input whose rank is not 4, [forward]
    raises the [ValueError] of the shape check; the log of calls is
    unchanged, so neither the compute kernel nor the requantization of the
    bias ([dequantize], [quantize_linear]) was called, and the module is
    unchanged. *)
Theorem forward_rank_not_4 (self : Conv2d) (cs : list event) (input : QTensor) :
  length (shape input) <> 4%nat ->
  forward input (World self cs)
  = (inl (ValueError "Input shape must be `(N, C, H, W)`!"), World self cs).
Proof.
  intros Hrank. unfold forward. run.
  destruct (Nat.eqb_spec (length (shape input)) 4); [contradiction|reflexivity].
Qed.

(** [forward] never assigns to the module. *)
Lemma forward_does_not_mutate (self : Conv2d) (cs : list event) (input : QTensor) :
  obj (snd (forward input (World self cs))) = self.
Proof.
  unfold forward, requantize_bias. run.
  destruct (negb _); [reflexivity|].
  destruct (bias self); cbn; try reflexivity.
  - destruct (permute to_NHWC input); cbn; [reflexivity|].
    destruct (_packed_weight self); cbn; [|reflexivity].
    destruct (conv2d _ _ _ _ _ _ _ _ _); reflexivity.
  - destruct (quantize_linear _ _ _ _); cbn; [reflexivity|].
    destruct (permute to_NHWC input); cbn; [reflexivity|].
    destruct (_packed_weight self); cbn; [|reflexivity].
    destruct (conv2d _ _ _ _ _ _ _ _ _); reflexivity.
Qed.


End Forward.


(** ** Serialization *)

Section Serialization.

Context `{Backend}.

(** [weight] never assigns to the module. *)
Lemma weight_does_not_mutate (st : world Conv2d) :
  obj (snd (weight st)) = obj st.
Proof.
  destruct st as [self cs]. unfold weight. run.
  destruct (_packed_weight self); cbn; [|reflexivity].
  destruct (conv_unpack _); reflexivity.
Qed.

Lemma save_to_state_dict_run (self : Conv2d) (destination : gmap string (pyval Packed))
    (prefix : string) (keep_vars : bool) (cs : list event) :
  let cs1 := cs ++ [call_Module_save_to_state_dict destination prefix] in
  _save_to_state_dict prefix keep_vars (World (self, destination) cs)
  = match weight (World self cs1) with
    | (inr w, st) => (inr tt, World (self, saved self w prefix destination) (calls st))
    | (inl e, st) => (inl e, World (self, destination) (calls st))
    end.
Proof.
  intros cs1. unfold _save_to_state_dict, Module_save_to_state_dict, setitem. run.
  fold cs1. pose proof (weight_does_not_mutate (World self cs1)) as Hsame.
  destruct (weight (World self cs1)) as [[e|w] st]; cbn in *; subst; reflexivity.
Qed.

Lemma getstate_run (self : Conv2d) (cs : list event) :
  __getstate__ (World self cs)
  = match weight (World self cs) with
    | (inr w, st) =>
        (inr [ PyInt (in_channels self);
               PyInt (out_channels self);
               PyTuple2 (fst (kernel_size self)) (snd (kernel_size self));
               PyTuple2 (fst (stride self)) (snd (stride self));
               PyTuple2 (fst (padding self)) (snd (padding self));
               PyTuple2 (fst (dilation self)) (snd (dilation self));
               PyBool (transposed self);
               PyInt (output_padding self);
               PyInt (groups self);
               PyStr (padding_mode self);
               PyQTensor w;
               bias self;
               PyFloat (scale self);
               PyInt (zero_point self) ], st)
    | (inl e, st) => (inl e, st)
    end.
Proof.
  unfold __getstate__. run.
  destruct (weight (World self cs)) as [[e|w] st]; reflexivity.
Qed.

(** C2.  For every module whose [bias] attribute is not itself a packed
    weight (the class declares it [Optional[Tensor]], and [__init__] and
    [from_float] assign [None] or a quantized tensor):

    - [_save_to_state_dict] leaves the module as it is; every entry of the
      destination that it adds or changes holds a value that is not a packed
      weight; when [weight()] returns [w] the destination becomes the old one
      with [prefix+'weight'] set to [w], [prefix+'scale'] and
      [prefix+'zero_point'] to the tensors of the output scale and zero
      point, and [prefix+'bias'] to the bias; when [weight()] raises, so does
      the method, with the destination unchanged;

    - [__getstate__] returns, when [weight()] returns [w], the 14 fields
      in_channels, out_channels, kernel_size, stride, padding, dilation,
      transposed, output_padding, groups, padding_mode, [w], bias, scale,
      zero_point, in this order, none of them a packed weight. *)
Theorem serialized_state_is_portable (self : Conv2d) (cs : list event) :
  is_packed (bias self) = false ->
  (forall (destination : gmap string (pyval Packed)) (prefix : string)
          (keep_vars : bool),
      let run_save :=
        _save_to_state_dict prefix keep_vars (World (self, destination) cs) in
      let final := snd (obj (snd run_save)) in
      fst (obj (snd run_save)) = self /\
      (forall k, final !! k <> destination !! k ->
         exists v, final !! k = Some v /\ is_packed v = false) /\
      match weight (World self (cs ++ [call_Module_save_to_state_dict destination
                                         prefix])) with
      | (inr w, _) =>
          fst run_save = inr tt /\ final = saved self w prefix destination
      | (inl e, _) => fst run_save = inl e /\ final = destination
      end) /\
  match weight (World self cs) with
  | (inr w, st) =>
      __getstate__ (World self cs)
      = (inr [ PyInt (in_channels self);
               PyInt (out_channels self);
               PyTuple2 (fst (kernel_size self)) (snd (kernel_size self));
               PyTuple2 (fst (stride self)) (snd (stride self));
               PyTuple2 (fst (padding self)) (snd (padding self));
               PyTuple2 (fst (dilation self)) (snd (dilation self));
               PyBool (transposed self);
               PyInt (output_padding self);
               PyInt (groups self);
               PyStr (padding_mode self);
               PyQTensor w;
               bias self;
               PyFloat (scale self);
               PyInt (zero_point self) ], st)
  | (inl e, st) => __getstate__ (World self cs) = (inl e, st)
  end /\
  (forall fields, fst (__getstate__ (World self cs)) = inr fields ->
     forallb (fun v => negb (is_packed v)) fields = true).
Proof.
  intros Hbias. split; [|split].
  - intros destination prefix keep_vars run_save final.
    subst final run_save. rewrite save_to_state_dict_run.
    destruct (weight _) as [[e|w] st]; cbn.
    + split; [reflexivity|]. split; [congruence|]. split; reflexivity.
    + split; [reflexivity|]. split; [|split; reflexivity].
      intros k Hk. unfold saved in *.
      destruct (decide (k = (prefix ++ "bias")%string)) as [->|Hb].
      { rewrite lookup_insert_eq. eauto. }
      rewrite lookup_insert_ne in * by congruence.
      destruct (decide (k = (prefix ++ "zero_point")%string)) as [->|Hz].
      { rewrite lookup_insert_eq. eauto. }
      rewrite lookup_insert_ne in * by congruence.
      destruct (decide (k = (prefix ++ "scale")%string)) as [->|Hs].
      { rewrite lookup_insert_eq. eauto. }
      rewrite lookup_insert_ne in * by congruence.
      destruct (decide (k = (prefix ++ "weight")%string)) as [->|Hw].
      { rewrite lookup_insert_eq. eauto. }
      rewrite lookup_insert_ne in * by congruence. congruence.
  - rewrite getstate_run. destruct (weight _) as [[e|w] st]; reflexivity.
  - intros fields. rewrite getstate_run.
    destruct (weight _) as [[e|w] st]; cbn; [discriminate|].
    intros [= <-]. cbn. rewrite Hbias. reflexivity.
Qed.

End Serialization.

(** ** Construction *)

Section Construction.

Context `{Backend}.

(** The constructor's checks on nonzero [groups], in their order. *)
Lemma init_rejects_padding_mode {S} (in_channels out_channels : Z)
    (kernel_size stride padding dilation : int_or_pair) (groups : Z) (bias : bool)
    (padding_mode : string) (st : world S) :
  padding_mode <> "zeros"%string ->
  __init__ in_channels out_channels kernel_size stride padding dilation groups bias
    padding_mode st
  = (inl (NotImplementedError
            "Currently only zero-padding is supported by quantized conv"), st).
Proof.
  intros Hpm. unfold __init__. run.
  destruct (String.eqb_spec padding_mode "zeros"); [contradiction|reflexivity].
Qed.

Lemma init_rejects_in_channels {S} (in_channels out_channels : Z)
    (kernel_size stride padding dilation : int_or_pair) (groups : Z) (bias : bool)
    (st : world S) :
  groups <> 0 ->
  in_channels mod groups <> 0 ->
  __init__ in_channels out_channels kernel_size stride padding dilation groups bias
    "zeros" st
  = (inl (ValueError "in_channels must be divisible by groups"), st).
Proof.
  intros Hg Hin. unfold __init__, py_mod. run. cbn.
  destruct (Z.eqb_spec groups 0); [contradiction|]. cbn.
  destruct (Z.eqb_spec (in_channels mod groups) 0); [contradiction|reflexivity].
Qed.

Lemma init_rejects_out_channels {S} (in_channels out_channels : Z)
    (kernel_size stride padding dilation : int_or_pair) (groups : Z) (bias : bool)
    (st : world S) :
  groups <> 0 ->
  in_channels mod groups = 0 ->
  out_channels mod groups <> 0 ->
  __init__ in_channels out_channels kernel_size stride padding dilation groups bias
    "zeros" st
  = (inl (ValueError "out_channels must be divisible by groups"), st).
Proof.
  intros Hg Hin Hout. unfold __init__, py_mod. run. cbn.
  destruct (Z.eqb_spec groups 0); [contradiction|]. cbn.
  rewrite Hin. cbn.
  destruct (Z.eqb_spec (out_channels mod groups) 0); [contradiction|reflexivity].
Qed.

(** With [groups = 0] and zero padding the first divisibility test itself
    raises: Python's [%] has no value on a zero divisor. *)
Lemma init_groups_zero {S} (in_channels out_channels : Z)
    (kernel_size stride padding dilation : int_or_pair) (bias : bool) (st : world S) :
  __init__ in_channels out_channels kernel_size stride padding dilation 0 bias
    "zeros" st
  = (inl ZeroDivisionError, st).
Proof. reflexivity. Qed.

(** A padding mode other than zeros, or, for nonzero [groups], a channel
    count that [groups] does not divide, makes the constructor raise its
    configuration error with the log unchanged (no tensor was allocated,
    nothing was packed), and no module results. *)
Lemma init_rejects_bad_config {S} (in_channels out_channels : Z)
    (kernel_size stride padding dilation : int_or_pair) (groups : Z) (bias : bool)
    (padding_mode : string) (st : world S) :
  padding_mode <> "zeros"%string \/
  (groups <> 0 /\
   (in_channels mod groups <> 0 \/ out_channels mod groups <> 0)) ->
  exists e,
    __init__ in_channels out_channels kernel_size stride padding dilation groups bias
      padding_mode st = (inl e, st) /\
    is_config_error e = true.
Proof.
  intros Hbad.
  destruct (decide (padding_mode = "zeros"%string)) as [->|Hpm].
  - destruct Hbad as [Hbad|[Hg Hbad]]; [contradiction|].
    destruct (Z.eq_dec (in_channels mod groups) 0) as [Hin|Hin].
    + destruct Hbad as [Hbad|Hbad]; [contradiction|].
      eexists. split; [apply init_rejects_out_channels; assumption|reflexivity].
    + eexists. split; [apply init_rejects_in_channels; assumption|reflexivity].
  - eexists. split; [apply init_rejects_padding_mode; assumption|reflexivity].
Qed.

(** C8, at [groups = 0].  [Conv2d(10, 10, 3, groups=0)]: 10 is not a
    multiple of 0, yet what the constructor raises is not its configuration
    error but the [ZeroDivisionError] of the divisibility test itself.  (No
    tensor has been allocated and no module results.) *)
Theorem init_groups_zero_not_config_error :
  ~ (0 | 10) /\
  (exists e,
      __init__ 10 10 (Int 3) (Int 1) (Int 0) (Int 1) 0 true "zeros" (World tt [])
      = (inl e, World tt []) /\
      e = ZeroDivisionError /\
      is_config_error e = false).
Proof.
  split.
  - intros [k Hk]. lia.
  - exists ZeroDivisionError. repeat split.
Qed.

End Construction.

(** ** Deserialization *)

Lemma append_inj_l (prefix a b : string) :
  (prefix ++ a)%string = (prefix ++ b)%string -> a = b.
Proof.
  induction prefix as [|c prefix IH]; cbn; [auto|].
  intros [= Heq]. auto.
Qed.

Section Deserialization.

Context `{Backend}.

Variable prefix : string.

Let wkey : string := (prefix ++ "weight")%string.
Let bkey : string := (prefix ++ "bias")%string.
Let skey : string := (prefix ++ "scale")%string.
Let zkey : string := (prefix ++ "zero_point")%string.

Lemma keys_distinct :
  wkey <> bkey /\ wkey <> skey /\ wkey <> zkey /\
  bkey <> skey /\ bkey <> zkey /\ skey <> zkey.
Proof.
  unfold wkey, bkey, skey, zkey.
  repeat split; intros Heq; apply append_inj_l in Heq; discriminate.
Qed.

Lemma only_required_removed_refl (d : gmap string (pyval Packed)) :
  only_required_removed prefix d d.
Proof. intros k. auto. Qed.

Lemma only_required_removed_delete (d d' : gmap string (pyval Packed))
    (key : string) :
  required prefix key -> only_required_removed prefix d d' ->
  only_required_removed prefix d (delete key d').
Proof.
  intros Hreq Hd k. destruct (decide (k = key)) as [->|Hne].
  - right. rewrite lookup_delete_eq. auto.
  - rewrite lookup_delete_ne by congruence. apply Hd.
Qed.

(** A missing weight: [KeyError], nothing has changed. *)
Lemma load_missing_weight (self : Conv2d) (sd : gmap string (pyval Packed))
    (cs : list event) :
  sd !! wkey = None ->
  _load_from_state_dict prefix (World (self, sd) cs)
  = (inl (KeyError wkey), World (self, sd) cs).
Proof.
  intros Hw. unfold _load_from_state_dict, getitem. run. fold wkey.
  rewrite Hw. reflexivity.
Qed.

(** A weight that [set_weight] refuses: its error, nothing has changed. *)
Lemma load_refused_weight (self : Conv2d) (sd : gmap string (pyval Packed))
    (cs : list event) (v : pyval Packed) (e : exn) (st : world Conv2d) :
  sd !! wkey = Some v ->
  set_weight_value v (World self cs) = (inl e, st) ->
  _load_from_state_dict prefix (World (self, sd) cs)
  = (inl e, World (obj st, sd) (calls st)).
Proof.
  intros Hw Hset. unfold _load_from_state_dict, getitem. run. fold wkey.
  rewrite Hw. cbn. rewrite Hset. reflexivity.
Qed.

(** The weight is installed first; a missing [bias] is found only
    then. *)
Lemma load_missing_bias (self self1 : Conv2d) (sd : gmap string (pyval Packed))
    (cs cs1 : list event) (v : pyval Packed) :
  sd !! wkey = Some v ->
  set_weight_value v (World self cs) = (inr tt, World self1 cs1) ->
  sd !! bkey = None ->
  _load_from_state_dict prefix (World (self, sd) cs)
  = (inl (KeyError bkey), World (self1, delete wkey sd) cs1).
Proof.
  intros Hw Hset Hb. destruct keys_distinct as (Hwb & _).
  unfold _load_from_state_dict, pop, getitem. run. fold wkey bkey.
  rewrite Hw. cbn. rewrite Hset. cbn. rewrite Hw. cbn.
  rewrite lookup_delete_ne, Hb by congruence. reflexivity.
Qed.

Lemma load_missing_scale (self self1 : Conv2d) (sd : gmap string (pyval Packed))
    (cs cs1 : list event) (v b : pyval Packed) :
  sd !! wkey = Some v ->
  set_weight_value v (World self cs) = (inr tt, World self1 cs1) ->
  sd !! bkey = Some b ->
  sd !! skey = None ->
  _load_from_state_dict prefix (World (self, sd) cs)
  = (inl (KeyError skey),
     World (set_bias b self1, delete bkey (delete wkey sd)) cs1).
Proof.
  intros Hw Hset Hb Hs. destruct keys_distinct as (Hwb & Hws & _ & Hbs & _).
  unfold _load_from_state_dict, pop, getitem. run. fold wkey bkey skey.
  rewrite Hw. cbn. rewrite Hset. cbn. rewrite Hw. cbn.
  rewrite lookup_delete_ne, Hb by congruence. cbn.
  rewrite lookup_delete_ne, Hb by congruence. cbn.
  rewrite !lookup_delete_ne, Hs by congruence. reflexivity.
Qed.

Lemma load_missing_zero_point (self self1 : Conv2d)
    (sd : gmap string (pyval Packed)) (cs cs1 : list event)
    (v b vs : pyval Packed) (s : float) :
  sd !! wkey = Some v ->
  set_weight_value v (World self cs) = (inr tt, World self1 cs1) ->
  sd !! bkey = Some b ->
  sd !! skey = Some vs ->
  py_float vs = inr s ->
  sd !! zkey = None ->
  _load_from_state_dict prefix (World (self, sd) cs)
  = (inl (KeyError zkey),
     World (set_scale s (set_bias b self1),
            delete skey (delete bkey (delete wkey sd))) cs1).
Proof.
  intros Hw Hset Hb Hs Hf Hz.
  destruct keys_distinct as (Hwb & Hws & Hwz & Hbs & Hbz & Hsz).
  unfold _load_from_state_dict, pop, getitem. run. fold wkey bkey skey zkey.
  rewrite Hw. cbn. rewrite Hset. cbn. rewrite Hw. cbn.
  rewrite lookup_delete_ne, Hb by congruence. cbn.
  rewrite lookup_delete_ne, Hb by congruence. cbn.
  rewrite !lookup_delete_ne, Hs by congruence. cbn. rewrite Hf. cbn.
  rewrite !lookup_delete_ne, Hs by congruence. cbn.
  rewrite !lookup_delete_ne, Hz by congruence. reflexivity.
Qed.

(** A scale that [float] refuses: its error, after the weight and the
    bias have been installed. *)
Lemma load_refused_scale (self self1 : Conv2d) (sd : gmap string (pyval Packed))
    (cs cs1 : list event) (v b vs : pyval Packed) (e : exn) :
  sd !! wkey = Some v ->
  set_weight_value v (World self cs) = (inr tt, World self1 cs1) ->
  sd !! bkey = Some b ->
  sd !! skey = Some vs ->
  py_float vs = inl e ->
  _load_from_state_dict prefix (World (self, sd) cs)
  = (inl e, World (set_bias b self1, delete bkey (delete wkey sd)) cs1).
Proof.
  intros Hw Hset Hb Hs Hf. destruct keys_distinct as (Hwb & Hws & _ & Hbs & _).
  unfold _load_from_state_dict, pop, getitem. run. fold wkey bkey skey.
  rewrite Hw. cbn. rewrite Hset. cbn. rewrite Hw. cbn.
  rewrite lookup_delete_ne, Hb by congruence. cbn.
  rewrite lookup_delete_ne, Hb by congruence. cbn.
  rewrite !lookup_delete_ne, Hs by congruence. cbn. rewrite Hf. reflexivity.
Qed.

(** A dictionary that lacks a required key is never loaded. *)
Lemma load_missing_raises (self : Conv2d) (sd : gmap string (pyval Packed))
    (cs : list event) :
  sd !! wkey = None \/ sd !! bkey = None \/ sd !! skey = None \/
  sd !! zkey = None ->
  exists e, fst (_load_from_state_dict prefix (World (self, sd) cs)) = inl e.
Proof.
  intros Hmiss.
  destruct (sd !! wkey) as [v|] eqn:Hw;
    [|rewrite load_missing_weight by assumption; eexists; reflexivity].
  destruct (set_weight_value v (World self cs)) as [[e|[]] [self1 cs1]] eqn:Hset;
    [erewrite load_refused_weight by eassumption; eexists; reflexivity|].
  destruct (sd !! bkey) as [b|] eqn:Hb;
    [|erewrite load_missing_bias by eassumption; eexists; reflexivity].
  destruct (sd !! skey) as [vs|] eqn:Hs;
    [|erewrite load_missing_scale by eassumption; eexists; reflexivity].
  destruct (py_float vs) as [e|x] eqn:Hf;
    [erewrite load_refused_scale by eassumption; eexists; reflexivity|].
  destruct (sd !! zkey) as [vz|] eqn:Hz;
    [|erewrite load_missing_zero_point by eassumption; eexists; reflexivity].
  destruct Hmiss as [Hm|[Hm|[Hm|Hm]]]; discriminate Hm.
Qed.

(** All four fields present and convertible: the weight goes through
    [set_weight], the other three are assigned, the four entries are
    removed from the caller's dictionary, and the base class's loader is
    called with what is left. *)
Lemma load_complete (self self1 : Conv2d) (sd : gmap string (pyval Packed))
    (cs cs1 : list event) (v b vs vz : pyval Packed) (s : float) (z : Z) :
  sd !! wkey = Some v ->
  set_weight_value v (World self cs) = (inr tt, World self1 cs1) ->
  sd !! bkey = Some b ->
  sd !! skey = Some vs ->
  py_float vs = inr s ->
  sd !! zkey = Some vz ->
  py_int vz = inr z ->
  let rest := delete zkey (delete skey (delete bkey (delete wkey sd))) in
  _load_from_state_dict prefix (World (self, sd) cs)
  = (inr tt,
     World (set_zero_point z (set_scale s (set_bias b self1)), rest)
       (cs1 ++ [call_Module_load_from_state_dict rest prefix])).
Proof.
  intros Hw Hset Hb Hs Hf Hz Hi rest.
  destruct keys_distinct as (Hwb & Hws & Hwz & Hbs & Hbz & Hsz).
  unfold _load_from_state_dict, Module_load_from_state_dict, pop, getitem. run.
  fold wkey bkey skey zkey.
  rewrite Hw. cbn. rewrite Hset. cbn. rewrite Hw. cbn.
  rewrite lookup_delete_ne, Hb by congruence. cbn.
  rewrite lookup_delete_ne, Hb by congruence. cbn.
  rewrite !lookup_delete_ne, Hs by congruence. cbn. rewrite Hf. cbn.
  rewrite !lookup_delete_ne, Hs by congruence. cbn.
  rewrite !lookup_delete_ne, Hz by congruence. cbn. rewrite Hi. cbn.
  rewrite !lookup_delete_ne, Hz by congruence. reflexivity.
Qed.

(** Whatever the outcome, the override changes the caller's dictionary
    only by removing required keys. *)
Lemma load_frame (self : Conv2d) (sd : gmap string (pyval Packed)) (cs : list event) :
  only_required_removed prefix sd
    (snd (obj (snd (_load_from_state_dict prefix (World (self, sd) cs))))).
Proof.
  assert (Hw : required prefix wkey) by (unfold required; auto).
  assert (Hb : required prefix bkey) by (unfold required; auto).
  assert (Hs : required prefix skey) by (unfold required; auto).
  assert (Hz : required prefix zkey) by (unfold required; auto).
  unfold _load_from_state_dict, Module_load_from_state_dict, pop, getitem. run.
  fold wkey bkey skey zkey.
  repeat first
    [ progress cbn [obj calls fst snd]
    | match goal with
      | |- only_required_removed _ ?d ?d => apply only_required_removed_refl
      | |- only_required_removed _ _ (delete _ _) =>
          apply only_required_removed_delete; [assumption|]
      | |- context [match ?m !! ?k with _ => _ end] => destruct (m !! k)
      | |- context [set_weight_value ?v ?w] =>
          destruct (set_weight_value v w) as [[?|[]] [? ?]]
      | |- context [py_float ?v] => destruct (py_float v)
      | |- context [py_int ?v] => destruct (py_int v)
      end ].
Qed.

End Deserialization.

(** ** Conversion from a float module *)

Section Conversion.

Context `{Backend}.

Lemma quantize_calls_app (l1 l2 : list event) :
  quantize_calls (l1 ++ l2) = quantize_calls l1 ++ quantize_calls l2.
Proof. apply flat_map_app. Qed.

(** A successful [set_weight], read backwards. *)
Lemma set_weight_ok_inv (self : Conv2d) (cs : list event) (w : QTensor)
    (st : world Conv2d) :
  set_weight w (World self cs) = (inr tt, st) ->
  exists w' pk,
    permute to_NHWC w = inr w' /\
    conv_prepack w' (stride self) (padding self) (dilation self) (groups self)
    = inr pk /\
    st = World (set_weight_scale (q_scale w) (set__packed_weight pk self))
           (cs ++ [call_conv_prepack w' (stride self) (padding self) (dilation self)
                     (groups self)]).
Proof.
  unfold set_weight. run.
  destruct (permute to_NHWC w) as [e|w'] eqn:Hp; cbn; [discriminate|].
  destruct (conv_prepack w' _ _ _ _) as [e|pk] eqn:Hk; cbn; [discriminate|].
  intros [= <-]. eauto.
Qed.

(** [set_weight] quantizes nothing. *)
Lemma set_weight_log (self : Conv2d) (cs : list event) (w : QTensor) :
  exists l,
    calls (snd (set_weight w (World self cs))) = cs ++ l /\ quantize_calls l = [].
Proof.
  unfold set_weight. run.
  destruct (permute to_NHWC w) as [e|w']; cbn.
  - exists []. rewrite app_nil_r. auto.
  - destruct (conv_prepack w' _ _ _ _) as [e|pk]; cbn; eexists; split;
      reflexivity.
Qed.

(** The constructor quantizes nothing and leaves the enclosing object
    alone. *)
Lemma init_log {S} (in_channels out_channels : Z)
    (kernel_size stride padding dilation : int_or_pair) (groups : Z) (bias : bool)
    (padding_mode : string) (st : world S) :
  let out :=
    __init__ in_channels out_channels kernel_size stride padding dilation groups
      bias padding_mode st in
  obj (snd out) = obj st /\
  exists l, calls (snd out) = calls st ++ l /\ quantize_calls l = [].
Proof.
  assert (Hnil : forall cs : list event,
             exists l : list event, cs = cs ++ l /\ quantize_calls l = []).
  { intros cs. exists []. rewrite app_nil_r. auto. }
  unfold __init__. run.
  destruct (negb (padding_mode =? "zeros")%string); cbn; [auto|].
  destruct (py_mod in_channels groups) as [e|r_in]; cbn; [auto|].
  destruct (negb (r_in =? 0)); cbn; [auto|].
  destruct (py_mod out_channels groups) as [e|r_out]; cbn; [auto|].
  destruct (negb (r_out =? 0)); cbn; [auto|].
  destruct (py_floordiv in_channels groups) as [e|per_group]; cbn; [auto|].
  destruct (_empty_affine_quantized _ 1 0 qint8) as [e|qweight]; cbn;
    [split; [reflexivity|]; eexists; split; reflexivity|].
  match goal with
  | |- context [set_weight ?w (World ?self ?cs)] =>
      destruct (set_weight_log self cs w) as [l [Hl Hq]];
      destruct (set_weight w (World self cs)) as [[e|[]] [self1 cs1]]
  end; cbn in *; subst cs1.
  - split; [reflexivity|]. rewrite <- app_assoc. eexists. split; [reflexivity|].
    rewrite quantize_calls_app, Hq. reflexivity.
  - destruct bias; cbn;
      [destruct (_empty_affine_quantized _ 1 0 qint32) as [e|qbias]; cbn|];
      (split; [reflexivity|]); repeat rewrite <- app_assoc;
      eexists; (split; [reflexivity|]); rewrite !quantize_calls_app, Hq;
      reflexivity.
Qed.

(** The constructor assigns [None] or a quantized tensor to [bias]. *)
Lemma init_ok_bias {S} (in_channels out_channels : Z)
    (kernel_size stride padding dilation : int_or_pair) (groups : Z)
    (has_bias : bool) (padding_mode : string) (st st' : world S) (self : Conv2d) :
  __init__ in_channels out_channels kernel_size stride padding dilation groups
    has_bias padding_mode st = (inr self, st') ->
  is_packed (bias self) = false.
Proof.
  unfold __init__. run.
  destruct (negb (padding_mode =? "zeros")%string); cbn; [discriminate|].
  destruct (py_mod in_channels groups) as [e|r_in]; cbn; [discriminate|].
  destruct (negb (r_in =? 0)); cbn; [discriminate|].
  destruct (py_mod out_channels groups) as [e|r_out]; cbn; [discriminate|].
  destruct (negb (r_out =? 0)); cbn; [discriminate|].
  destruct (py_floordiv in_channels groups) as [e|per_group]; cbn; [discriminate|].
  destruct (_empty_affine_quantized _ 1 0 qint8) as [e|qweight]; cbn;
    [discriminate|].
  match goal with
  | |- context [set_weight ?w (World ?self ?cs)] =>
      destruct (set_weight w (World self cs)) as [[e|[]] [self1 cs1]]
  end; cbn; [discriminate|].
  destruct has_bias; cbn;
    [destruct (_empty_affine_quantized _ 1 0 qint32) as [e|qbias]; cbn;
     [discriminate|]|];
    intros [= <- _]; reflexivity.
Qed.

(** The first part of [from_float] builds nothing quantized: it only
    fuses and observes. *)
Lemma from_float_observers_log (cls : QuantizedClass) (st : world FloatModule) :
  exists l,
    calls (snd (from_float_observers cls st)) = calls st ++ l /\
    forallb (fun e => negb (builds_quantized e)) l = true.
Proof.
  assert (Hnil : exists l : list event,
             calls st = calls st ++ l /\
             forallb (fun e => negb (builds_quantized e)) l = true).
  { exists []. rewrite app_nil_r. auto. }
  unfold from_float_observers, getchild. run.
  destruct (fm_weight_fake_quant (obj st)) as [fq|]; cbn.
  - destruct (module_class_eqb (fm_type (obj st)) nniqat_ConvBn2d); cbn.
    + destruct (fm_bn (obj st)) as [bn|]; cbn; [|exact Hnil].
      destruct (fm_observer (obj st)); cbn; eexists; split; reflexivity.
    + destruct (fm_observer (obj st)); cbn; exact Hnil.
  - destruct (module_class_eqb (fm_type (obj st)) (_FLOAT_MODULE cls)); cbn;
      [|exact Hnil].
    destruct (fm_qconfig (obj st)) as [qc|] eqn:Hqc; cbn; [|exact Hnil].
    destruct (module_class_eqb (fm_type (obj st)) nni_ConvReLU2d); cbn.
    + destruct (fm_children (obj st)) as [|conv [|relu rest]]; cbn;
        try exact Hnil.
      destruct (fm_observer relu); cbn; [|exact Hnil].
      destruct (fm_qconfig conv); cbn; [|exact Hnil].
      eexists; split; reflexivity.
    + destruct (fm_observer (obj st)); cbn; [|exact Hnil].
      rewrite Hqc. cbn. eexists; split; reflexivity.
Qed.

(** The dtype gate: with a weight observer whose dtype is not [qint8] the
    second part raises right after asking the activation observer for its
    parameters. *)
Lemma from_float_convert_wrong_dtype (mod_ : FloatModule)
    (weight_observer activation_observer : Observer) (st : world FloatModule) :
  obs_dtype weight_observer <> qint8 ->
  from_float_convert mod_ weight_observer activation_observer st
  = (inl (AssertionError "Weight observer must have a dtype of qint8"),
     World (obj st) (calls st ++ [call_calculate_qparams activation_observer])).
Proof.
  intros Hdt. unfold from_float_convert. run.
  destruct (obs_dtype weight_observer); cbn; congruence.
Qed.

(** What an accepted conversion has done. *)
Lemma from_float_convert_accepted (mod_ : FloatModule)
    (weight_observer activation_observer : Observer) (st st' : world FloatModule)
    (qconv : Conv2d) :
  from_float_convert mod_ weight_observer activation_observer st = (inr qconv, st') ->
  let act := calculate_qparams activation_observer in
  let wt := calculate_qparams weight_observer in
  let bias_scale := (fst act / 65536)%float in
  exists qweight l,
    obs_dtype weight_observer = qint8 /\
    quantize_linear (fm_weight mod_) (fst wt) (snd wt) qint8 = inr qweight /\
    obj st' = obj st /\
    calls st' = calls st ++ l /\
    weight_scale qconv = q_scale qweight /\
    scale qconv = fst act /\
    zero_point qconv = snd act /\
    match fm_bias mod_ with
    | Some b =>
        exists qb,
          quantize_linear b bias_scale 0 qint32 = inr qb /\
          bias qconv = PyQTensor qb /\
          quantize_calls l
          = [(fm_weight mod_, fst wt, snd wt, qint8); (b, bias_scale, 0, qint32)]
    | None =>
        bias qconv = PyNone /\
        quantize_calls l = [(fm_weight mod_, fst wt, snd wt, qint8)]
    end.
Proof.
  intros Hrun act wt bias_scale. unfold from_float_convert in Hrun. run.
  fold act wt in Hrun.
  destruct (dtype_eqb (obs_dtype weight_observer) qint8) eqn:Hdt; cbn in Hrun;
    [|discriminate].
  destruct (quantize_linear (fm_weight mod_) (fst wt) (snd wt) qint8)
    as [e|qweight] eqn:Hq; cbn in Hrun; [discriminate|].
  match type of Hrun with
  | context [__init__ ?a ?b ?c ?d ?e ?f ?g ?h ?i ?w] =>
      destruct (init_log a b c d e f g h i w) as [Hobj [l0 [Hl0 Hq0]]];
      destruct (__init__ a b c d e f g h i w) as [[e0|qconv0] [o0 cs0]]
  end; cbn in *; [discriminate|]. subst o0 cs0.
  match type of Hrun with
  | context [set_weight ?w (World ?self ?cs)] =>
      destruct (set_weight_log self cs w) as [l1 [Hl1 Hq1]];
      destruct (set_weight w (World self cs)) as [[e1|[]] [qconv1 cs1]] eqn:Hset
  end; cbn in *; [discriminate|]. subst cs1.
  apply set_weight_ok_inv in Hset. destruct Hset as (w' & pk & _ & _ & Hst).
  injection Hst as Hqconv1. subst qconv1. subst bias_scale.
  exists qweight.
  destruct (fm_bias mod_) as [b|]; cbn in *.
  - destruct (quantize_linear b _ 0 qint32) as [e|qb] eqn:Hqb; cbn in Hrun;
      [discriminate|].
    injection Hrun as <- <-. cbn. eexists. repeat rewrite <- app_assoc.
    repeat split; try reflexivity.
    + destruct (obs_dtype weight_observer); (reflexivity || discriminate).
    + exists qb. repeat split.
      rewrite !quantize_calls_app, Hq0, Hq1. reflexivity.
  - injection Hrun as <- <-. cbn. eexists. repeat rewrite <- app_assoc.
    repeat split; try reflexivity.
    + destruct (obs_dtype weight_observer); (reflexivity || discriminate).
    + rewrite !quantize_calls_app, Hq0, Hq1. reflexivity.
Qed.

Lemma from_float_split (cls : QuantizedClass) (st st1 : world FloatModule)
    (mod_ : FloatModule) (weight_observer activation_observer : Observer) :
  from_float_observers cls st
  = (inr (mod_, weight_observer, activation_observer), st1) ->
  from_float cls st = from_float_convert mod_ weight_observer activation_observer st1.
Proof. intros Hobs. unfold from_float. run. rewrite Hobs. reflexivity. Qed.

(** [set_weight] leaves the bias alone, and a module that [from_float]
    returns has [None] or a quantized tensor as its bias. *)
Lemma set_weight_keeps_bias (self : Conv2d) (cs : list event) (w : QTensor) :
  bias (obj (snd (set_weight w (World self cs)))) = bias self.
Proof.
  unfold set_weight. run.
  destruct (permute to_NHWC w) as [e|w']; cbn; [reflexivity|].
  destruct (conv_prepack w' _ _ _ _); reflexivity.
Qed.

Lemma from_float_ok_bias (cls : QuantizedClass) (st st2 : world FloatModule)
    (qconv : Conv2d) :
  from_float cls st = (inr qconv, st2) -> is_packed (bias qconv) = false.
Proof.
  unfold from_float. run.
  destruct (from_float_observers cls st) as [[e|[[mod_ wo] ao]] st1]; cbn;
    [discriminate|].
  intros Hrun. apply from_float_convert_accepted in Hrun.
  destruct Hrun as (qweight & l & _ & _ & _ & _ & _ & _ & _ & Hbias).
  destruct (fm_bias mod_).
  - destruct Hbias as (qb & _ & -> & _). reflexivity.
  - destruct Hbias as (-> & _). reflexivity.
Qed.

(** C4, as amended.  For every float module accepted by [from_float],
    the weight is quantized exactly once, as [qint8], with the scale and
    the zero point that the weight observer's [calculate_qparams] reports:
    the zero point used is the observer's, and it is 0 exactly when the
    observer reports 0. *)
Theorem from_float_weight_qparams (cls : QuantizedClass)
    (st st1 st2 : world FloatModule) (mod_ : FloatModule)
    (weight_observer activation_observer : Observer) (qconv : Conv2d) :
  from_float_observers cls st
  = (inr (mod_, weight_observer, activation_observer), st1) ->
  from_float cls st = (inr qconv, st2) ->
  let wt := calculate_qparams weight_observer in
  exists qweight l,
    quantize_linear (fm_weight mod_) (fst wt) (snd wt) qint8 = inr qweight /\
    weight_scale qconv = q_scale qweight /\
    calls st2 = calls st1 ++ l /\
    List.filter (fun c => dtype_eqb (snd c) qint8) (quantize_calls l)
    = [(fm_weight mod_, fst wt, snd wt, qint8)].
Proof.
  intros Hobs Hrun wt. rewrite (from_float_split _ _ _ _ _ _ Hobs) in Hrun.
  apply from_float_convert_accepted in Hrun.
  destruct Hrun as (qweight & l & _ & Hq & _ & Hl & Hws & _ & _ & Hbias).
  exists qweight, l. repeat split; try assumption.
  destruct (fm_bias mod_) as [b|].
  - destruct Hbias as (qb & _ & _ & ->). reflexivity.
  - destruct Hbias as (_ & ->). reflexivity.
Qed.



(** C7, as amended.  For every float module in which [from_float] finds
    its observers, if the dtype of the weight observer is not [qint8] then
    [from_float] raises the assertion error of the dtype check; up to that
    point no tensor has been quantized, no quantized tensor allocated and no
    weight packed, so no quantized module has been constructed.  For a
    float module in which it does not find them (a failed type or qconfig
    assertion, a missing [observer]), [from_float] raises the error of that
    earlier step instead, whatever the dtype of the weight observer, and
    again nothing has been quantized, allocated or packed. *)
Theorem from_float_dtype_gate (cls : QuantizedClass) (st : world FloatModule) :
  (forall (st1 : world FloatModule) (mod_ : FloatModule)
          (weight_observer activation_observer : Observer),
      from_float_observers cls st
      = (inr (mod_, weight_observer, activation_observer), st1) ->
      obs_dtype weight_observer <> qint8 ->
      exists l,
        from_float cls st
        = (inl (AssertionError "Weight observer must have a dtype of qint8"),
           World (obj st1) (calls st ++ l)) /\
        forallb (fun e => negb (builds_quantized e)) l = true) /\
  (forall (e : exn) (st1 : world FloatModule),
      from_float_observers cls st = (inl e, st1) ->
      exists l,
        from_float cls st = (inl e, World (obj st1) (calls st ++ l)) /\
        forallb (fun e => negb (builds_quantized e)) l = true).
Proof.
  split.
  - intros st1 mod_ weight_observer activation_observer Hobs Hdt.
    rewrite (from_float_split _ _ _ _ _ _ Hobs).
    rewrite from_float_convert_wrong_dtype by assumption.
    destruct (from_float_observers_log cls st) as (l & Hl & Hb).
    rewrite Hobs in Hl. cbn in Hl. rewrite Hl, <- app_assoc.
    eexists. split; [reflexivity|].
    rewrite forallb_app, Hb. reflexivity.
  - intros e st1 Hobs.
    destruct (from_float_observers_log cls st) as (l & Hl & Hb).
    rewrite Hobs in Hl. cbn in Hl.
    exists l. split; [|exact Hb].
    unfold from_float. run. rewrite Hobs. cbn. rewrite <- Hl.
    destruct st1; reflexivity.
Qed.

End Conversion.

(** ** Loading a state dictionary *)

Section Loading.

Context `{Backend}.

(** C9, as amended.  [_load_from_state_dict] reads the four fields in the
    order weight, bias, scale, zero_point, installing each before it looks
    for the next, and a dictionary that lacks one of them is never loaded:
    the override raises.  Which error it raises and what it leaves behind
    depends on how far it came:

    - without [prefix+'weight'] it raises [KeyError] and nothing has
      changed;
    - with a weight that [set_weight] accepts but without [prefix+'bias'] it
      raises [KeyError] after the weight has been installed and its entry
      removed from the dictionary;
    - likewise a missing [prefix+'scale'] is found after the bias has been
      assigned, and a missing [prefix+'zero_point'] after the scale has been
      assigned;
    - with all four fields, a weight that [set_weight] accepts and a scale
      and zero point that convert, it installs the weight through
      [set_weight], assigns bias, scale and zero point, and returns. *)
Theorem load_state_dict_field_by_field (prefix : string) (self : Conv2d)
    (sd : gmap string (pyval Packed)) (cs : list event) :
  let wkey := (prefix ++ "weight")%string in
  let bkey := (prefix ++ "bias")%string in
  let skey := (prefix ++ "scale")%string in
  let zkey := (prefix ++ "zero_point")%string in
  let run_load := _load_from_state_dict prefix (World (self, sd) cs) in
  (sd !! wkey = None ->
   run_load = (inl (KeyError wkey), World (self, sd) cs)) /\
  (forall v self1 cs1,
      sd !! wkey = Some v ->
      set_weight_value v (World self cs) = (inr tt, World self1 cs1) ->
      (sd !! bkey = None ->
       run_load = (inl (KeyError bkey), World (self1, delete wkey sd) cs1)) /\
      (forall b,
          sd !! bkey = Some b ->
          (sd !! skey = None ->
           run_load
           = (inl (KeyError skey),
              World (set_bias b self1, delete bkey (delete wkey sd)) cs1)) /\
          (forall vs s,
              sd !! skey = Some vs ->
              py_float vs = inr s ->
              (sd !! zkey = None ->
               run_load
               = (inl (KeyError zkey),
                  World (set_scale s (set_bias b self1),
                         delete skey (delete bkey (delete wkey sd))) cs1)) /\
              (forall vz z,
                  sd !! zkey = Some vz ->
                  py_int vz = inr z ->
                  fst run_load = inr tt /\
                  fst (obj (snd run_load))
                  = set_zero_point z (set_scale s (set_bias b self1)))))) /\
  (sd !! wkey = None \/ sd !! bkey = None \/ sd !! skey = None \/
   sd !! zkey = None ->
   exists e, fst run_load = inl e).
Proof.
  intros wkey bkey skey zkey run_load. split; [|split].
  - apply load_missing_weight.
  - intros v self1 cs1 Hw Hset. split.
    + intros Hb. eapply load_missing_bias; eassumption.
    + intros b Hb. split.
      * intros Hs. eapply load_missing_scale; eassumption.
      * intros vs s Hs Hf. split.
        -- intros Hz. eapply load_missing_zero_point; eassumption.
        -- intros vz z Hz Hi. subst run_load.
           erewrite load_complete by eassumption. split; reflexivity.
  - apply load_missing_raises.
Qed.

(** C10, as amended.  Whatever the outcome, [_load_from_state_dict]
    changes the caller's dictionary only by removing entries among
    [prefix+'weight'], [prefix+'bias'], [prefix+'scale'] and
    [prefix+'zero_point']: no entry is added, no other entry is removed or
    changed.  For a dictionary that
    holds the four keys with a weight that [set_weight] accepts and a scale
    and zero point that convert, the override removes exactly these four
    entries, then calls the base class's loader with the dictionary so
    reduced, and that is the dictionary the caller is left with. *)
Theorem load_state_dict_removes_required (prefix : string) (self : Conv2d)
    (sd : gmap string (pyval Packed)) (cs : list event) :
  let wkey := (prefix ++ "weight")%string in
  let bkey := (prefix ++ "bias")%string in
  let skey := (prefix ++ "scale")%string in
  let zkey := (prefix ++ "zero_point")%string in
  let run_load := _load_from_state_dict prefix (World (self, sd) cs) in
  let final := snd (obj (snd run_load)) in
  only_required_removed prefix sd final /\
  (forall v self1 cs1 b vs s vz z,
      sd !! wkey = Some v ->
      set_weight_value v (World self cs) = (inr tt, World self1 cs1) ->
      sd !! bkey = Some b ->
      sd !! skey = Some vs ->
      py_float vs = inr s ->
      sd !! zkey = Some vz ->
      py_int vz = inr z ->
      fst run_load = inr tt /\
      calls (snd run_load) = cs1 ++ [call_Module_load_from_state_dict final prefix] /\
      final !! wkey = None /\ final !! bkey = None /\
      final !! skey = None /\ final !! zkey = None /\
      (forall k, k <> wkey -> k <> bkey -> k <> skey -> k <> zkey ->
                 final !! k = sd !! k)).
Proof.
  intros wkey bkey skey zkey run_load final. split; [apply load_frame|].
  subst wkey bkey skey zkey final run_load.
  intros v self1 cs1 b vs s vz z Hw Hset Hb Hs Hf Hz Hi.
  destruct (keys_distinct prefix) as (Hwb & Hws & Hwz & Hbs & Hbz & Hsz).
  erewrite load_complete by eassumption. cbn [fst snd obj calls].
  split; [reflexivity|]. split; [reflexivity|].
  split; [rewrite !lookup_delete_ne by congruence; apply lookup_delete_eq|].
  split; [rewrite !lookup_delete_ne by congruence; apply lookup_delete_eq|].
  split; [rewrite !lookup_delete_ne by congruence; apply lookup_delete_eq|].
  split; [apply lookup_delete_eq|].
  intros k Hkw Hkb Hks Hkz. rewrite !lookup_delete_ne by congruence. reflexivity.
Qed.

End Loading.

(** ** More on [set_weight] and [forward] *)

Section WeightAndForward.

Context `{Backend}.

(** X1.  [set_weight] replaces the packed weight and the cached weight
    scale together or not at all: when it returns, the module differs from
    the old one in exactly these two attributes (the packed NHWC view of [w]
    and [w.q_scale()]) and the backend was asked once to pack; when it
    raises, the module is the old one. *)
Theorem set_weight_is_atomic (self : Conv2d) (cs : list event) (w : QTensor) :
  match set_weight w (World self cs) with
  | (inr _, st) =>
      exists w_nhwc pk,
        permute to_NHWC w = inr w_nhwc /\
        conv_prepack w_nhwc (stride self) (padding self) (dilation self)
          (groups self) = inr pk /\
        obj st = set_weight_scale (q_scale w) (set__packed_weight pk self) /\
        calls st = cs ++ [call_conv_prepack w_nhwc (stride self) (padding self)
                            (dilation self) (groups self)]
  | (inl _, st) => obj st = self
  end.
Proof.
  destruct (set_weight w (World self cs)) as [[e|[]] st] eqn:Hrun.
  - eapply set_weight_raises_unchanged; eassumption.
  - apply set_weight_ok_inv in Hrun. destruct Hrun as (w' & pk & Hp & Hk & ->).
    exists w', pk. auto.
Qed.

(** X2.  A weight whose rank is not 4 is refused by the permutation before
    the backend is called: [set_weight] raises, the log and the module are
    unchanged. *)
Theorem set_weight_rank_not_4 (self : Conv2d) (cs : list event) (w : QTensor) :
  length (shape w) <> 4%nat ->
  set_weight w (World self cs)
  = (inl (RuntimeError "number of dims don't match in permute"), World self cs).
Proof.
  intros Hrank. unfold set_weight. run.
  rewrite (permute_NHWC_other_rank w Hrank). reflexivity.
Qed.

(** X3.  [forward] only reads the module: whatever the input and the
    outcome, the module is unchanged (the stored bias keeps its own scale),
    and the only collaborators called are [dequantize], [quantize_linear]
    and the kernel, the kernel at most once. *)
Theorem forward_is_read_only (self : Conv2d) (cs : list event) (input : QTensor) :
  obj (snd (forward input (World self cs))) = self /\
  exists l,
    calls (snd (forward input (World self cs))) = cs ++ l /\
    forallb forward_call l = true /\
    (length (List.filter kernel_call l) <= 1)%nat.
Proof.
  assert (Hnil : exists l : list event,
             cs = cs ++ l /\ forallb forward_call l = true /\
             (length (List.filter kernel_call l) <= 1)%nat).
  { exists []. rewrite app_nil_r. cbn. auto. }
  unfold forward, requantize_bias. run.
  destruct (negb _); cbn; [auto|].
  destruct (bias self); cbn; auto.
  - destruct (permute to_NHWC input); cbn; [auto|].
    destruct (_packed_weight self); cbn; [|auto].
    destruct (conv2d _ _ _ _ _ _ _ _ _); cbn; (split; [reflexivity|]);
      eexists; (split; [reflexivity|]); cbn; auto.
  - destruct (quantize_linear _ _ _ _); cbn.
    + split; [reflexivity|]. rewrite <- app_assoc. eexists.
      split; [reflexivity|]. cbn. auto.
    + destruct (permute to_NHWC input); cbn.
      * split; [reflexivity|]. rewrite <- app_assoc. eexists.
        split; [reflexivity|]. cbn. auto.
      * destruct (_packed_weight self); cbn.
        -- destruct (conv2d _ _ _ _ _ _ _ _ _); cbn; (split; [reflexivity|]);
             repeat rewrite <- app_assoc; eexists; (split; [reflexivity|]);
             cbn; auto.
        -- split; [reflexivity|]. rewrite <- app_assoc. eexists.
           split; [reflexivity|]. cbn. auto.
Qed.

(** X4.  On a module without bias, [forward] of a rank-4 input calls the
    kernel once, with the NHWC view of the input, the packed weight, no
    bias and the module's stride, padding, dilation, groups, output scale
    and zero point; nothing is quantized or dequantized; the result is the
    kernel's output permuted back, or the kernel's error. *)
Theorem forward_without_bias (self : Conv2d) (cs : list event) (input : QTensor)
    (pk : Packed) :
  length (shape input) = 4%nat ->
  bias self = PyNone ->
  _packed_weight self = Some pk ->
  exists input_nhwc,
    permute to_NHWC input = inr input_nhwc /\
    forward input (World self cs)
    = (match conv2d input_nhwc pk None (stride self) (padding self)
               (dilation self) (groups self) (scale self) (zero_point self) with
       | inr output => permute to_NCHW output
       | inl e => inl e
       end,
       World self
         (cs ++ [call_conv2d input_nhwc pk None (stride self) (padding self)
                   (dilation self) (groups self) (scale self) (zero_point self)])).
Proof.
  intros Hrank Hb Hpk.
  destruct (permute_NHWC_rank4 input Hrank) as [input' Hin].
  exists input'. split; [exact Hin|].
  unfold forward, requantize_bias. run. rewrite Hrank, Hb. cbn.
  rewrite Hin. cbn. rewrite Hpk. cbn.
  destruct (conv2d _ _ _ _ _ _ _ _ _); reflexivity.
Qed.

(** A permutation keeps the storage and the quantization parameters. *)
Lemma permute_keeps_qparams (dims : list nat) (t t' : QTensor) :
  permute dims t = inr t' ->
  q_storage t' = q_storage t /\ q_scale t' = q_scale t /\
  q_zero_point t' = q_zero_point t /\ q_dtype t' = q_dtype t.
Proof.
  unfold permute. destruct (is_permutation_of_dims _ _); [|discriminate].
  intros [= <-]. auto.
Qed.

Lemma permute_NCHW_elem (t t' : QTensor) (n c h w : Z) :
  permute to_NCHW t = inr t' ->
  q_elem t' [n; c; h; w] = q_elem t [n; h; w; c].
Proof.
  destruct t as [dims off st sc zp dt]. unfold permute, to_NCHW. cbn [q_dims].
  destruct dims as [|[s0 r0] [|[s1 r1] [|[s2 r2] [|[s3 r3] [|d4 dims]]]]];
    cbn; try discriminate.
  intros [= <-]. unfold q_elem. cbn. f_equal. f_equal. lia.
Qed.

(** X5.  [forward] takes and returns NCHW tensors around a kernel that
    works on NHWC: when it returns [output], the kernel was given a view
    whose element at [n, h, w, c] is the input's element at [n, c, h, w],
    and the element of [output] at [n, c, h, w] is the element of the
    kernel's result at [n, h, w, c]; [output] has the scale, zero point and
    dtype of the kernel's result. *)
Theorem forward_layout (self : Conv2d) (cs : list event) (input output : QTensor)
    (st : world Conv2d) :
  forward input (World self cs) = (inr output, st) ->
  exists input_nhwc kernel_output pk b,
    permute to_NHWC input = inr input_nhwc /\
    conv2d input_nhwc pk b (stride self) (padding self) (dilation self)
      (groups self) (scale self) (zero_point self) = inr kernel_output /\
    (forall n c h w,
        q_elem input_nhwc [n; h; w; c] = q_elem input [n; c; h; w]) /\
    (forall n c h w,
        q_elem output [n; c; h; w] = q_elem kernel_output [n; h; w; c]) /\
    q_scale output = q_scale kernel_output /\
    q_zero_point output = q_zero_point kernel_output /\
    q_dtype output = q_dtype kernel_output.
Proof.
  unfold forward, requantize_bias. run.
  destruct (negb _); cbn; [discriminate|].
  destruct (bias self); cbn; try discriminate;
    [|destruct (quantize_linear _ _ _ _) as [e|qb]; cbn; [discriminate|]];
    (destruct (permute to_NHWC input) as [e|input'] eqn:Hin; cbn;
       [discriminate|];
     destruct (_packed_weight self) as [pk|]; cbn; [|discriminate];
     destruct (conv2d _ _ _ _ _ _ _ _ _) as [e|kout] eqn:Hk; cbn;
       [discriminate|];
     intros [= Hout _];
     destruct (permute_keeps_qparams _ _ _ Hout) as (_ & Hs & Hz & Hd);
     eexists input', kout, pk, _;
     split; [reflexivity|]; split; [exact Hk|];
     split; [intros; eapply permute_NHWC_elem; eassumption|];
     split; [intros; eapply permute_NCHW_elem; eassumption|];
     auto).
Qed.

End WeightAndForward.

(** ** More on construction *)

Section Constructor.

Context `{Backend}.

(** X6.  With zero padding, nonzero [groups] that divides both channel
    counts, a placeholder weight that the tensor library allocates and the
    backend packs, and a placeholder bias that the tensor library allocates
    when one is asked for, the constructor returns a module with the given
    configuration (ints expanded to pairs), [transposed = False],
    [output_padding = 0], output scale 1.0 and zero point 0, the packed
    placeholder of shape
    [out_channels, in_channels // groups, kernel_h, kernel_w], and the
    placeholder bias of shape [out_channels] or [None]; it allocates the
    weight, packs it, and allocates the bias only when asked for one. *)
Theorem init_constructs {S} (in_channels out_channels : Z)
    (kernel_size stride padding dilation : int_or_pair) (groups : Z)
    (has_bias : bool) (st : world S) (qweight w_nhwc qbias : QTensor)
    (pk : Packed) :
  let size := [out_channels; in_channels / groups; fst (_pair kernel_size);
               snd (_pair kernel_size)] in
  groups <> 0 ->
  in_channels mod groups = 0 ->
  out_channels mod groups = 0 ->
  _empty_affine_quantized size 1 0 qint8 = inr qweight ->
  permute to_NHWC qweight = inr w_nhwc ->
  conv_prepack w_nhwc (_pair stride) (_pair padding) (_pair dilation) groups
  = inr pk ->
  (has_bias = true ->
   _empty_affine_quantized [out_channels] 1 0 qint32 = inr qbias) ->
  __init__ in_channels out_channels kernel_size stride padding dilation groups
    has_bias "zeros" st
  = (inr (mkConv2d in_channels out_channels (_pair kernel_size) (_pair stride)
            (_pair padding) (_pair dilation) false 0 groups "zeros" (Some pk)
            (q_scale qweight)
            (if has_bias then PyQTensor qbias else PyNone)
            1 0),
     World (obj st)
       (calls st
        ++ [call_empty_affine_quantized size 1 0 qint8;
            call_conv_prepack w_nhwc (_pair stride) (_pair padding)
              (_pair dilation) groups]
        ++ (if has_bias
            then [call_empty_affine_quantized [out_channels] 1 0 qint32]
            else []))).
Proof.
  intros size Hg Hin Hout Hw Hp Hk Hb.
  unfold __init__, py_mod, py_floordiv. run. cbn.
  destruct (Z.eqb_spec groups 0); [contradiction|]. cbn.
  rewrite Hin, Hout. cbn. fold size. rewrite Hw. cbn.
  erewrite set_weight_packs by eassumption. cbn.
  destruct has_bias; cbn; [rewrite (Hb eq_refl); cbn|];
    repeat rewrite <- app_assoc; reflexivity.
Qed.

(** X21.  The placeholder weight is allocated with the size
    [out_channels, in_channels // groups, kernel_h, kernel_w] as it is: when
    the configuration passes the checks and the tensor library refuses that
    size (a negative [groups] that divides [in_channels] gives a negative
    second entry), the constructor raises the library's error; the
    allocation is the only call made, nothing was packed and no module
    results. *)
Theorem init_allocation_refused {S} (in_channels out_channels : Z)
    (kernel_size stride padding dilation : int_or_pair) (groups : Z)
    (has_bias : bool) (st : world S) (e : exn) :
  let size := [out_channels; in_channels / groups; fst (_pair kernel_size);
               snd (_pair kernel_size)] in
  groups <> 0 ->
  in_channels mod groups = 0 ->
  out_channels mod groups = 0 ->
  _empty_affine_quantized size 1 0 qint8 = inl e ->
  __init__ in_channels out_channels kernel_size stride padding dilation groups
    has_bias "zeros" st
  = (inl e,
     World (obj st) (calls st ++ [call_empty_affine_quantized size 1 0 qint8])).
Proof.
  intros size Hg Hin Hout Hw.
  unfold __init__, py_mod, py_floordiv. run. cbn.
  destruct (Z.eqb_spec groups 0); [contradiction|]. cbn.
  rewrite Hin, Hout. cbn. fold size. rewrite Hw. reflexivity.
Qed.

(** A module that the constructor returns, read backwards. *)
Lemma init_ok_inv {S} (in_channels out_channels : Z)
    (kernel_size stride padding dilation : int_or_pair) (groups : Z)
    (has_bias : bool) (padding_mode : string) (st st' : world S) (self : Conv2d) :
  __init__ in_channels out_channels kernel_size stride padding dilation groups
    has_bias padding_mode st = (inr self, st') ->
  padding_mode = "zeros"%string /\ groups <> 0 /\
  in_channels mod groups = 0 /\ out_channels mod groups = 0 /\
  exists qweight w_nhwc pk b,
    _empty_affine_quantized
      [out_channels; in_channels / groups; fst (_pair kernel_size);
       snd (_pair kernel_size)] 1 0 qint8 = inr qweight /\
    conv_prepack w_nhwc (_pair stride) (_pair padding) (_pair dilation) groups
    = inr pk /\
    (if has_bias
     then exists qbias,
         _empty_affine_quantized [out_channels] 1 0 qint32 = inr qbias /\
         b = PyQTensor qbias
     else b = PyNone) /\
    self
    = mkConv2d in_channels out_channels (_pair kernel_size) (_pair stride)
        (_pair padding) (_pair dilation) false 0 groups "zeros" (Some pk)
        (q_scale qweight) b 1 0.
Proof.
  unfold __init__, py_mod, py_floordiv. run.
  destruct (String.eqb_spec padding_mode "zeros") as [->|]; cbn; [|discriminate].
  destruct (Z.eqb_spec groups 0) as [|Hg]; cbn; [discriminate|].
  destruct (Z.eqb_spec (in_channels mod groups) 0) as [Hin|]; cbn; [|discriminate].
  destruct (Z.eqb_spec (out_channels mod groups) 0) as [Hout|]; cbn;
    [|discriminate].
  destruct (_empty_affine_quantized _ 1 0 qint8) as [e|qweight] eqn:Hw; cbn;
    [discriminate|].
  match goal with
  | |- context [set_weight ?w (World ?self0 ?cs)] =>
      destruct (set_weight w (World self0 cs)) as [[e|[]] st1] eqn:Hset
  end; cbn; [discriminate|].
  apply set_weight_ok_inv in Hset. destruct Hset as (w' & pk & _ & Hk & ->).
  cbn in *. intros Hrun.
  repeat (split; [assumption || reflexivity|]).
  destruct has_bias; cbn in Hrun.
  - destruct (_empty_affine_quantized [out_channels] 1 0 qint32)
      as [e|qbias] eqn:Hb; cbn in Hrun; [discriminate|].
    injection Hrun as <- _.
    exists qweight, w', pk, (PyQTensor qbias).
    split; [reflexivity|]. split; [exact Hk|].
    split; [exists qbias; split; reflexivity|reflexivity].
  - injection Hrun as <- _.
    exists qweight, w', pk, PyNone.
    split; [reflexivity|]. split; [exact Hk|]. split; reflexivity.
Qed.

(** X7.  Every module that the constructor returns satisfies the
    configuration invariants: its padding mode is zeros, its [groups] is
    not zero and divides [in_channels] and [out_channels]; it holds a packed
    weight, is not transposed, has output padding 0, output scale 1.0 and
    zero point 0, and a bias exactly when one was asked for. *)
Theorem constructed_module_invariants {S} (in_ch out_ch : Z)
    (kernel stride_ padding_ dilation_ : int_or_pair) (groups_ : Z)
    (has_bias : bool) (mode : string) (st st' : world S) (self : Conv2d) :
  __init__ in_ch out_ch kernel stride_ padding_ dilation_ groups_ has_bias mode st
  = (inr self, st') ->
  padding_mode self = "zeros"%string /\
  groups self <> 0 /\
  in_channels self mod groups self = 0 /\
  out_channels self mod groups self = 0 /\
  (exists pk, _packed_weight self = Some pk) /\
  transposed self = false /\
  output_padding self = 0 /\
  scale self = 1%float /\
  zero_point self = 0 /\
  (bias self = PyNone <-> has_bias = false).
Proof.
  intros Hrun. apply init_ok_inv in Hrun.
  destruct Hrun as (_ & Hg & Hin & Hout & qw & w' & pk & b & _ & _ & Hb & ->).
  cbn.
  do 4 (split; [assumption || reflexivity|]).
  split; [exists pk; reflexivity|].
  do 4 (split; [reflexivity|]).
  destruct has_bias.
  - destruct Hb as (qbias & _ & ->). split; intros Hb; discriminate Hb.
  - subst b. split; reflexivity.
Qed.

(** X8.  The constructor checks the padding mode first, then
    [in_channels], then [out_channels]: a padding mode other than zeros
    raises [NotImplementedError] whatever the other arguments; with zero
    padding and nonzero [groups], an [in_channels] that [groups] does not
    divide raises its [ValueError] whatever [out_channels] is, and otherwise
    an [out_channels] that [groups] does not divide raises its own.  In each
    case nothing has been allocated or packed. *)
Theorem init_checks_in_order {S} (in_channels out_channels : Z)
    (kernel_size stride padding dilation : int_or_pair) (groups : Z)
    (has_bias : bool) (padding_mode : string) (st : world S) :
  let run_init :=
    __init__ in_channels out_channels kernel_size stride padding dilation groups
      has_bias padding_mode st in
  (padding_mode <> "zeros"%string ->
   run_init
   = (inl (NotImplementedError
             "Currently only zero-padding is supported by quantized conv"), st)) /\
  (padding_mode = "zeros"%string -> groups <> 0 ->
   in_channels mod groups <> 0 ->
   run_init = (inl (ValueError "in_channels must be divisible by groups"), st)) /\
  (padding_mode = "zeros"%string -> groups <> 0 ->
   in_channels mod groups = 0 -> out_channels mod groups <> 0 ->
   run_init = (inl (ValueError "out_channels must be divisible by groups"), st)).
Proof.
  intros run_init. subst run_init. split; [|split].
  - apply init_rejects_padding_mode.
  - intros -> Hg Hin. apply init_rejects_in_channels; assumption.
  - intros -> Hg Hin Hout. apply init_rejects_out_channels; assumption.
Qed.

End Constructor.

(** ** The state tuple *)

Section StateTuple.

Context `{Backend}.

(** [__setstate__] is its ten assignments of configuration, then
    [set_weight], then three more assignments. *)
Lemma setstate_run (self : Conv2d) (cs : list event) (state : State) :
  __setstate__ state (World self cs)
  = match set_weight (state_weight state) (World (with_config state self) cs) with
    | (inr _, st) =>
        (inr tt,
         World (set_zero_point (state_zero_point state)
                  (set_scale (state_scale state)
                     (set_bias (optional_tensor (state_bias state)) (obj st))))
           (calls st))
    | (inl e, st) => (inl e, st)
    end.
Proof.
  unfold __setstate__. run.
  change (set_padding_mode (state_padding_mode state)
            (set_groups (state_groups state)
               (set_output_padding (state_output_padding state)
                  (set_transposed (state_transposed state)
                     (set_dilation (state_dilation state)
                        (set_padding (state_padding state)
                           (set_stride (state_stride state)
                              (set_kernel_size (state_kernel_size state)
                                 (set_out_channels (state_out_channels state)
                                    (set_in_channels (state_in_channels state)
                                       self))))))))))
    with (with_config state self).
  destruct (set_weight (state_weight state) (World (with_config state self) cs))
    as [[e|[]] [self1 cs1]]; reflexivity.
Qed.

(** X9.  [__setstate__] validates nothing and packs the weight with the
    structure parameters of the state, not those the module had: whenever
    the backend packs the NHWC view of the state's weight with the state's
    stride, padding, dilation and groups, the module becomes exactly the
    state (with that packed weight and the weight's scale as weight scale),
    whatever the module was and whatever the padding mode and channel counts
    of the state are. *)
Theorem setstate_installs (self : Conv2d) (cs : list event) (state : State)
    (w_nhwc : QTensor) (pk : Packed) :
  permute to_NHWC (state_weight state) = inr w_nhwc ->
  conv_prepack w_nhwc (state_stride state) (state_padding state)
    (state_dilation state) (state_groups state) = inr pk ->
  __setstate__ state (World self cs)
  = (inr tt,
     World (mkConv2d (state_in_channels state) (state_out_channels state)
              (state_kernel_size state) (state_stride state)
              (state_padding state) (state_dilation state)
              (state_transposed state) (state_output_padding state)
              (state_groups state) (state_padding_mode state) (Some pk)
              (q_scale (state_weight state)) (optional_tensor (state_bias state))
              (state_scale state) (state_zero_point state))
       (cs ++ [call_conv_prepack w_nhwc (state_stride state)
                 (state_padding state) (state_dilation state)
                 (state_groups state)])).
Proof.
  intros Hp Hk. rewrite setstate_run.
  erewrite set_weight_packs by (cbn; eassumption). reflexivity.
Qed.

(** X10.  When [set_weight] refuses the weight of the state,
    [__setstate__] raises with the module half updated: the ten
    configuration attributes are those of the state, while the packed
    weight, the weight scale, the bias, the output scale and the zero point
    are still the old ones. *)
Theorem setstate_refused_weight (self : Conv2d) (cs : list event) (state : State)
    (e : exn) :
  fst (set_weight (state_weight state) (World (with_config state self) cs))
  = inl e ->
  fst (__setstate__ state (World self cs)) = inl e /\
  obj (snd (__setstate__ state (World self cs))) = with_config state self.
Proof.
  intros Hset. rewrite setstate_run.
  destruct (set_weight (state_weight state) (World (with_config state self) cs))
    as [[e'|[]] st] eqn:Hrun; cbn in Hset; [|discriminate].
  injection Hset as ->. split; [reflexivity|].
  eapply set_weight_raises_unchanged. exact Hrun.
Qed.

(** X11.  [__setstate__] undoes [__getstate__].  Assume that the backend's
    [conv_unpack] is the inverse of its [conv_prepack].  If [__getstate__] of
    a module returns a state and the backend packs that state's weight with
    the state's structure parameters, then [__setstate__] of this state, on
    any module, returns and leaves a module with the configuration, bias,
    output scale and zero point of the first one, whose [weight()] is the
    weight of the state. *)
Theorem getstate_setstate_roundtrip
    (unpack_prepack : forall t s p d g pk,
        conv_prepack t s p d g = inr pk -> conv_unpack pk = inr t)
    (self target : Conv2d) (cs cs' : list event) (state : State)
    (st : world Conv2d) :
  __getstate__ (World self cs) = (inr (fields_of state), st) ->
  (forall w_nhwc, permute to_NHWC (state_weight state) = inr w_nhwc ->
     exists pk, conv_prepack w_nhwc (state_stride state) (state_padding state)
                  (state_dilation state) (state_groups state) = inr pk) ->
  exists st',
    __setstate__ state (World target cs') = (inr tt, st') /\
    same_config (obj st') self /\
    bias (obj st') = bias self /\
    scale (obj st') = scale self /\
    zero_point (obj st') = zero_point self /\
    weight_scale (obj st') = q_scale (state_weight state) /\
    fst (weight st') = inr (state_weight state) /\
    fst (weight (World self cs)) = inr (state_weight state).
Proof.
  intros Hget Hcompat. rewrite getstate_run in Hget.
  destruct (weight (World self cs)) as [[e|w] st0] eqn:Hw; [discriminate|].
  injection Hget as Hin Hout Hks1 Hks2 Hst1 Hst2 Hpd1 Hpd2 Hdl1 Hdl2 Htr Hop Hg
    Hpm Hweight Hbias Hscale Hzp _.
  subst w.
  assert (Hrank : exists w', permute to_NHWC (state_weight state) = inr w').
  { unfold weight in Hw. run. destruct (_packed_weight self); cbn in Hw;
      [|discriminate].
    destruct (conv_unpack _) as [e|t]; cbn in Hw; [discriminate|].
    injection Hw as Hperm _. eauto using permute_NCHW_NHWC. }
  destruct Hrank as [w' Hw'].
  destruct (Hcompat w' Hw') as [pk Hpk].
  eexists. split; [apply (setstate_installs target cs' state w' pk Hw' Hpk)|].
  cbn. unfold same_config. cbn.
  destruct (kernel_size self), (stride self), (padding self), (dilation self),
    (state_kernel_size state), (state_stride state), (state_padding state),
    (state_dilation state); cbn in *.
  split; [repeat split; congruence|].
  repeat (split; [congruence|]).
  split; [|reflexivity].
  erewrite weight_unpacks; cbn; eauto using permute_NHWC_NCHW.
Qed.

End StateTuple.

(** ** Saving and loading *)

Section SaveAndLoad.

Context `{Backend}.

(** What [weight()] returns does not depend on the log. *)
Lemma weight_value (self : Conv2d) (cs1 cs2 : list event) :
  fst (weight (World self cs1)) = fst (weight (World self cs2)).
Proof.
  unfold weight. run.
  destruct (_packed_weight self); cbn; [|reflexivity].
  destruct (conv_unpack _); reflexivity.
Qed.

(** X12.  [_save_to_state_dict] writes under its own four keys only: in
    every outcome, every other entry of the destination (the entries of
    other modules, under other prefixes) is as it was. *)
Theorem save_to_state_dict_frame (self : Conv2d)
    (destination : gmap string (pyval Packed)) (prefix : string)
    (keep_vars : bool) (cs : list event) (k : string) :
  k <> (prefix ++ "weight")%string ->
  k <> (prefix ++ "bias")%string ->
  k <> (prefix ++ "scale")%string ->
  k <> (prefix ++ "zero_point")%string ->
  snd (obj (snd (_save_to_state_dict prefix keep_vars
                   (World (self, destination) cs)))) !! k
  = destination !! k.
Proof.
  intros Hw Hb Hs Hz. rewrite save_to_state_dict_run.
  destruct (weight _) as [[e|w] st]; cbn; [reflexivity|].
  unfold saved. rewrite !lookup_insert_ne by congruence. reflexivity.
Qed.

(** X13.  Loading what was saved.  Assume that the backend's [conv_unpack]
    is the inverse of its [conv_prepack] and that [float] and [int] read a
    one-element tensor's value back.  If [weight()] of a module returns [w],
    and the backend packs [w] with the structure parameters of a second
    module, then [_load_from_state_dict] into the second module, from the
    dictionary that [_save_to_state_dict] of the first one has written under
    the same prefix, returns.  The loaded module keeps its own configuration
    and has the bias and zero point of the first, the weight [w] (as
    [weight()] returns it) with its scale as weight scale, and as output
    scale the first module's scale rounded to the tensor library's default
    float type.  The dictionary is left as it was before the save, without
    the four keys. *)
Theorem save_load_roundtrip
    (unpack_prepack : forall t s p d g pk,
        conv_prepack t s p d g = inr pk -> conv_unpack pk = inr t)
    (float_of_tensor : forall x, py_float (PyTensorF x) = inr x)
    (int_of_tensor : forall n, py_int (PyTensorI n) = inr n)
    (self target : Conv2d) (destination : gmap string (pyval Packed))
    (prefix : string) (keep_vars : bool) (cs cs' : list event) (w : QTensor) :
  fst (weight (World self cs)) = inr w ->
  (forall w_nhwc, permute to_NHWC w = inr w_nhwc ->
     exists pk, conv_prepack w_nhwc (stride target) (padding target)
                  (dilation target) (groups target) = inr pk) ->
  let written :=
    snd (obj (snd (_save_to_state_dict prefix keep_vars
                     (World (self, destination) cs)))) in
  let run_load := _load_from_state_dict prefix (World (target, written) cs') in
  let loaded := fst (obj (snd run_load)) in
  fst run_load = inr tt /\
  same_config loaded target /\
  bias loaded = bias self /\
  zero_point loaded = zero_point self /\
  scale loaded = default_float (scale self) /\
  weight_scale loaded = q_scale w /\
  fst (weight (World loaded [])) = inr w /\
  snd (obj (snd run_load))
  = delete (prefix ++ "zero_point")%string
      (delete (prefix ++ "scale")%string
         (delete (prefix ++ "bias")%string
            (delete (prefix ++ "weight")%string destination))).
Proof.
  intros Hweight Hcompat written run_load loaded.
  destruct (keys_distinct prefix) as (Hwb & Hws & Hwz & Hbs & Hbz & Hsz).
  assert (Hwritten : written = saved self w prefix destination).
  { subst written. rewrite save_to_state_dict_run.
    pose proof (weight_value self
                  (cs ++ [call_Module_save_to_state_dict destination prefix]) cs)
      as Hvalue.
    rewrite Hweight in Hvalue.
    destruct (weight (World self
                        (cs ++ [call_Module_save_to_state_dict destination
                                  prefix])))
      as [[e|w0] st]; cbn in Hvalue |- *; congruence. }
  assert (Hrank : exists w', permute to_NHWC w = inr w').
  { unfold weight in Hweight. run. destruct (_packed_weight self); cbn in Hweight;
      [|discriminate].
    destruct (conv_unpack _) as [e|t]; cbn in Hweight; [discriminate|].
    eauto using permute_NCHW_NHWC. }
  destruct Hrank as [w' Hw'].
  destruct (Hcompat w' Hw') as [pk Hpk].
  assert (Hload : run_load
                  = (inr tt,
                     World (set_zero_point (zero_point self)
                              (set_scale (default_float (scale self))
                                 (set_bias (bias self)
                                    (set_weight_scale (q_scale w)
                                       (set__packed_weight pk target)))),
                            delete (prefix ++ "zero_point")%string
                              (delete (prefix ++ "scale")%string
                                 (delete (prefix ++ "bias")%string
                                    (delete (prefix ++ "weight")%string
                                       written))))
                       ((cs' ++ [call_conv_prepack w' (stride target)
                                   (padding target) (dilation target)
                                   (groups target)])
                        ++ [call_Module_load_from_state_dict
                              (delete (prefix ++ "zero_point")%string
                                 (delete (prefix ++ "scale")%string
                                    (delete (prefix ++ "bias")%string
                                       (delete (prefix ++ "weight")%string
                                          written))))
                              prefix]))).
  { subst run_load.
    apply (load_complete prefix target _ written cs' _ (PyQTensor w) (bias self)
             (torch_tensor_float (scale self)) (torch_tensor_int (zero_point self))).
    - rewrite Hwritten. unfold saved.
      rewrite !lookup_insert_ne by congruence. apply lookup_insert_eq.
    - cbn. apply set_weight_packs; assumption.
    - rewrite Hwritten. unfold saved. apply lookup_insert_eq.
    - rewrite Hwritten. unfold saved.
      rewrite !lookup_insert_ne by congruence. apply lookup_insert_eq.
    - apply float_of_tensor.
    - rewrite Hwritten. unfold saved.
      rewrite !lookup_insert_ne by congruence. apply lookup_insert_eq.
    - apply int_of_tensor. }
  subst loaded. rewrite Hload. cbn [fst snd obj calls].
  split; [reflexivity|]. split; [unfold same_config; cbn; auto 20|].
  do 4 (split; [reflexivity|]).
  split.
  - erewrite weight_unpacks; cbn; eauto using permute_NHWC_NCHW.
  - rewrite Hwritten. unfold saved. apply map_eq. intros k.
    rewrite !lookup_delete, !lookup_insert.
    repeat case_decide; congruence.
Qed.

End SaveAndLoad.

(** ** More on the conversion from a float module *)

Section MoreConversion.

Context `{Backend}.

(** X14.  What [from_float] refuses in a module without
    [weight_fake_quant], before it calls anything and without touching the
    module: a module whose type is not the class's [_FLOAT_MODULE]
    (assertion error naming both classes); then a module without [qconfig]
    (assertion error); then, for a class whose float module is not
    [ConvReLU2d], a module without [observer], which is not an assertion
    but an [AttributeError]. *)
Theorem from_float_refuses (cls : QuantizedClass) (st : world FloatModule) :
  fm_weight_fake_quant (obj st) = None ->
  (module_class_eqb (fm_type (obj st)) (_FLOAT_MODULE cls) = false ->
   from_float cls st
   = (inl (AssertionError
             (" nnq." ++ __name__ cls ++ ".from_float only works for "
                ++ class_name (_FLOAT_MODULE cls))), st)) /\
  (module_class_eqb (fm_type (obj st)) (_FLOAT_MODULE cls) = true ->
   fm_qconfig (obj st) = None ->
   from_float cls st
   = (inl (AssertionError "Input float module must have qconfig defined"), st)) /\
  (module_class_eqb (fm_type (obj st)) (_FLOAT_MODULE cls) = true ->
   fm_qconfig (obj st) <> None ->
   _FLOAT_MODULE cls <> nni_ConvReLU2d ->
   fm_observer (obj st) = None ->
   from_float cls st = (inl (AttributeError "observer"), st)).
Proof.
  intros Hfq. unfold from_float, from_float_observers. run. rewrite Hfq.
  split; [|split].
  - intros ->. reflexivity.
  - intros -> ->. reflexivity.
  - intros Hty Hqc Hcls Hobs. rewrite Hty. cbn.
    destruct (fm_qconfig (obj st)); [|contradiction]. cbn.
    destruct (module_class_eqb (fm_type (obj st)) nni_ConvReLU2d) eqn:Hrelu.
    + exfalso. apply Hcls.
      destruct (fm_type (obj st)), (_FLOAT_MODULE cls); cbn in *;
        congruence.
    + cbn. rewrite Hobs. reflexivity.
Qed.

(** The second part of [from_float] never assigns to the float module. *)
Lemma from_float_convert_keeps_module (mod_ : FloatModule)
    (weight_observer activation_observer : Observer) (st : world FloatModule) :
  obj (snd (from_float_convert mod_ weight_observer activation_observer st))
  = obj st.
Proof.
  unfold from_float_convert. run.
  destruct (dtype_eqb (obs_dtype weight_observer) qint8); cbn; [|reflexivity].
  destruct (quantize_linear (fm_weight mod_) _ _ qint8); cbn; [reflexivity|].
  match goal with
  | |- context [__init__ ?a ?b ?c ?d ?e ?f ?g ?h ?i ?w] =>
      destruct (init_log a b c d e f g h i w) as [Hobj _];
      destruct (__init__ a b c d e f g h i w) as [[e0|qconv0] [o0 cs0]]
  end; cbn in *; [assumption|]. subst o0.
  match goal with
  | |- context [set_weight ?w (World ?self ?cs)] =>
      destruct (set_weight w (World self cs)) as [[e1|[]] [qconv1 cs1]]
  end; cbn; [reflexivity|].
  destruct (fm_bias mod_); cbn; [|reflexivity].
  destruct (quantize_linear _ _ _ qint32); reflexivity.
Qed.

(** X15.  [from_float] leaves the caller's float module as it is, whatever
    the outcome, unless the module carries [weight_fake_quant] and is a
    [ConvBn2d]. *)
Theorem from_float_keeps_float_module (cls : QuantizedClass)
    (st : world FloatModule) :
  fm_weight_fake_quant (obj st) = None \/
  module_class_eqb (fm_type (obj st)) nniqat_ConvBn2d = false ->
  obj (snd (from_float cls st)) = obj st.
Proof.
  intros Hpath. unfold from_float. run.
  assert (Hobs : obj (snd (from_float_observers cls st)) = obj st).
  { unfold from_float_observers, getchild. run.
    destruct (fm_weight_fake_quant (obj st)) as [fq|]; cbn.
    - destruct Hpath as [Hpath|Hpath]; [discriminate|]. rewrite Hpath. cbn.
      destruct (fm_observer (obj st)); reflexivity.
    - destruct (module_class_eqb (fm_type (obj st)) (_FLOAT_MODULE cls)); cbn;
        [|reflexivity].
      destruct (fm_qconfig (obj st)) as [qc|] eqn:Hqc; cbn; [|reflexivity].
      destruct (module_class_eqb (fm_type (obj st)) nni_ConvReLU2d); cbn.
      + destruct (fm_children (obj st)) as [|conv [|relu rest]]; cbn;
          try reflexivity.
        destruct (fm_observer relu); cbn; [|reflexivity].
        destruct (fm_qconfig conv); reflexivity.
      + destruct (fm_observer (obj st)); cbn; [|reflexivity].
        rewrite Hqc. reflexivity. }
  destruct (from_float_observers cls st) as [[e|[[mod_ wo] ao]] st1]; cbn in *;
    [assumption|].
  rewrite from_float_convert_keeps_module. assumption.
Qed.

(** The second part of [from_float] only adds to the log. *)
Lemma from_float_convert_extends_log (mod_ : FloatModule)
    (weight_observer activation_observer : Observer) (st : world FloatModule) :
  exists l,
    calls (snd (from_float_convert mod_ weight_observer activation_observer st))
    = calls st ++ l.
Proof.
  unfold from_float_convert. run.
  destruct (dtype_eqb (obs_dtype weight_observer) qint8); cbn;
    [|eexists; reflexivity].
  destruct (quantize_linear (fm_weight mod_) _ _ qint8); cbn;
    [repeat rewrite <- app_assoc; eexists; reflexivity|].
  match goal with
  | |- context [__init__ ?a ?b ?c ?d ?e ?f ?g ?h ?i ?w] =>
      destruct (init_log a b c d e f g h i w) as [_ [l0 [Hl0 _]]];
      destruct (__init__ a b c d e f g h i w) as [[e0|qconv0] [o0 cs0]]
  end; cbn in *; subst cs0;
    [repeat rewrite <- app_assoc; eexists; reflexivity|].
  match goal with
  | |- context [set_weight ?w (World ?self ?cs)] =>
      destruct (set_weight_log self cs w) as [l1 [Hl1 _]];
      destruct (set_weight w (World self cs)) as [[e1|[]] [qconv1 cs1]]
  end; cbn in *; subst cs1;
    [repeat rewrite <- app_assoc; eexists; reflexivity|].
  destruct (fm_bias mod_); cbn;
    [destruct (quantize_linear _ _ _ qint32); cbn|];
    repeat rewrite <- app_assoc; eexists; reflexivity.
Qed.

(** X16.  Converting a [ConvBn2d] that carries [weight_fake_quant] fuses
    the batch normalization into the caller's module itself: whatever the
    outcome of [from_float] (also when it then raises for want of an
    observer or at the dtype check), the module's [weight] and [bias] have
    been replaced by what [fuse_conv_bn_weights] returns for its weight,
    bias, running statistics, [eps], [gamma] and [beta], and the module then
    has a bias even if it had none. *)
Theorem from_float_fuses_in_place (cls : QuantizedClass) (st : world FloatModule)
    (fake_quant : Observer) (bn : BatchNorm) :
  fm_weight_fake_quant (obj st) = Some fake_quant ->
  fm_type (obj st) = nniqat_ConvBn2d ->
  fm_bn (obj st) = Some bn ->
  let fused :=
    fuse_conv_bn_weights (fm_weight (obj st)) (fm_bias (obj st))
      (running_mean bn) (running_var bn) (eps bn) (gamma bn) (beta bn) in
  obj (snd (from_float cls st))
  = fm_set_weight_bias (fst fused) (Some (snd fused)) (obj st) /\
  exists l,
    calls (snd (from_float cls st))
    = calls st
      ++ call_fuse_conv_bn_weights (fm_weight (obj st)) (fm_bias (obj st)) bn :: l.
Proof.
  intros Hfq Hty Hbn fused. unfold from_float. run.
  assert (Hobs :
            obj (snd (from_float_observers cls st))
            = fm_set_weight_bias (fst fused) (Some (snd fused)) (obj st) /\
            calls (snd (from_float_observers cls st))
            = calls st
              ++ [call_fuse_conv_bn_weights (fm_weight (obj st))
                    (fm_bias (obj st)) bn]).
  { unfold from_float_observers. run. rewrite Hfq, Hty. cbn. rewrite Hbn. cbn.
    fold fused. destruct (fm_observer (obj st)); cbn; auto. }
  destruct Hobs as [Hobj Hcalls].
  destruct (from_float_observers cls st) as [[e|[[mod_ wo] ao]] st1]; cbn in *.
  - split; [assumption|]. exists []. assumption.
  - rewrite from_float_convert_keeps_module. split; [assumption|].
    destruct (from_float_convert_extends_log mod_ wo ao st1) as [l Hl].
    rewrite Hl, Hcalls, <- app_assoc. eexists. reflexivity.
Qed.

(** The module that an accepted second part returns. *)
Lemma from_float_convert_result (mod_ : FloatModule)
    (weight_observer activation_observer : Observer) (st st' : world FloatModule)
    (qconv : Conv2d) :
  from_float_convert mod_ weight_observer activation_observer st = (inr qconv, st') ->
  let act := calculate_qparams activation_observer in
  let wt := calculate_qparams weight_observer in
  fm_padding_mode mod_ = "zeros"%string /\
  fm_groups mod_ <> 0 /\
  fm_in_channels mod_ mod fm_groups mod_ = 0 /\
  fm_out_channels mod_ mod fm_groups mod_ = 0 /\
  exists qweight w_nhwc pk,
    quantize_linear (fm_weight mod_) (fst wt) (snd wt) qint8 = inr qweight /\
    permute to_NHWC qweight = inr w_nhwc /\
    conv_prepack w_nhwc (_pair (fm_stride mod_)) (_pair (fm_padding mod_))
      (_pair (fm_dilation mod_)) (fm_groups mod_) = inr pk /\
    qconv
    = mkConv2d (fm_in_channels mod_) (fm_out_channels mod_)
        (_pair (fm_kernel_size mod_)) (_pair (fm_stride mod_))
        (_pair (fm_padding mod_)) (_pair (fm_dilation mod_)) false 0
        (fm_groups mod_) "zeros" (Some pk) (q_scale qweight) (bias qconv)
        (fst act) (snd act).
Proof.
  intros Hrun act wt. unfold from_float_convert in Hrun. run.
  fold act wt in Hrun.
  destruct (dtype_eqb (obs_dtype weight_observer) qint8); cbn in Hrun;
    [|discriminate].
  destruct (quantize_linear (fm_weight mod_) (fst wt) (snd wt) qint8)
    as [e|qweight] eqn:Hq; cbn in Hrun; [discriminate|].
  match type of Hrun with
  | context [__init__ ?a ?b ?c ?d ?e ?f ?g ?h ?i ?w] =>
      destruct (__init__ a b c d e f g h i w) as [[e0|qconv0] st0] eqn:Hinit
  end; cbn in Hrun; [discriminate|].
  apply init_ok_inv in Hinit.
  destruct Hinit as (Hpm & Hg & Hin & Hout & qw0 & w0 & pk0 & b0 & _ & _ & _ & ->).
  match type of Hrun with
  | context [set_weight ?w (World ?self ?cs)] =>
      destruct (set_weight w (World self cs)) as [[e1|[]] st1] eqn:Hset
  end; cbn in Hrun; [discriminate|].
  apply set_weight_ok_inv in Hset. destruct Hset as (w' & pk & Hp & Hk & ->).
  cbn in Hp, Hk, Hrun.
  repeat (split; [assumption|]).
  exists qweight, w', pk. repeat (split; [assumption || reflexivity|]).
  destruct (fm_bias mod_) as [b|]; cbn in Hrun.
  - destruct (quantize_linear b _ 0 qint32) as [e|qb]; cbn in Hrun;
      [discriminate|].
    injection Hrun as <- _. reflexivity.
  - injection Hrun as <- _. reflexivity.
Qed.

(** X17.  The module that [from_float] returns.  When [from_float]
    accepts a module, the module it read has zero padding and a nonzero
    [groups] that divides both channel counts, and the quantized module is
    exactly this: the channel counts, kernel size, stride, padding, dilation
    (as pairs) and groups of the float module; not transposed, output
    padding 0; the weight quantized with the weight observer's parameters
    and packed, as its NHWC view, with that stride, padding, dilation and
    groups; that weight's scale as weight scale; and the activation
    observer's scale and zero point as output scale and zero point. *)
Theorem from_float_result (cls : QuantizedClass) (st st1 st2 : world FloatModule)
    (mod_ : FloatModule) (weight_observer activation_observer : Observer)
    (qconv : Conv2d) :
  from_float_observers cls st
  = (inr (mod_, weight_observer, activation_observer), st1) ->
  from_float cls st = (inr qconv, st2) ->
  let act := calculate_qparams activation_observer in
  let wt := calculate_qparams weight_observer in
  fm_padding_mode mod_ = "zeros"%string /\
  fm_groups mod_ <> 0 /\
  fm_in_channels mod_ mod fm_groups mod_ = 0 /\
  fm_out_channels mod_ mod fm_groups mod_ = 0 /\
  exists qweight w_nhwc pk,
    quantize_linear (fm_weight mod_) (fst wt) (snd wt) qint8 = inr qweight /\
    permute to_NHWC qweight = inr w_nhwc /\
    conv_prepack w_nhwc (_pair (fm_stride mod_)) (_pair (fm_padding mod_))
      (_pair (fm_dilation mod_)) (fm_groups mod_) = inr pk /\
    qconv
    = mkConv2d (fm_in_channels mod_) (fm_out_channels mod_)
        (_pair (fm_kernel_size mod_)) (_pair (fm_stride mod_))
        (_pair (fm_padding mod_)) (_pair (fm_dilation mod_)) false 0
        (fm_groups mod_) "zeros" (Some pk) (q_scale qweight) (bias qconv)
        (fst act) (snd act).
Proof.
  intros Hobs Hrun. rewrite (from_float_split _ _ _ _ _ _ Hobs) in Hrun.
  apply from_float_convert_result in Hrun. exact Hrun.
Qed.

End MoreConversion.

(** ** How the methods compose *)

Section Composition.

Context `{Backend}.

(** X18.  A state dictionary whose weight is a quantized tensor of a rank
    other than 4 is refused before anything is assigned or removed:
    [_load_from_state_dict] raises, and the module, the dictionary and the
    log are unchanged. *)
Theorem load_weight_rank_not_4 (prefix : string) (self : Conv2d)
    (sd : gmap string (pyval Packed)) (cs : list event) (w : QTensor) :
  sd !! (prefix ++ "weight")%string = Some (PyQTensor w) ->
  length (shape w) <> 4%nat ->
  _load_from_state_dict prefix (World (self, sd) cs)
  = (inl (RuntimeError "number of dims don't match in permute"),
     World (self, sd) cs).
Proof.
  intros Hw Hrank.
  apply (load_refused_weight prefix self sd cs (PyQTensor w) _ (World self cs) Hw).
  cbn. unfold set_weight. run.
  rewrite (permute_NHWC_other_rank w Hrank). reflexivity.
Qed.


(** X20.  Serializing only reads the module: [__getstate__] leaves the
    module unchanged in every outcome and calls no collaborator but
    [conv_unpack], at most once. *)
Theorem getstate_is_read_only (self : Conv2d) (cs : list event) :
  obj (snd (__getstate__ (World self cs))) = self /\
  (calls (snd (__getstate__ (World self cs))) = cs \/
   exists pk,
     _packed_weight self = Some pk /\
     calls (snd (__getstate__ (World self cs))) = cs ++ [call_conv_unpack pk]).
Proof.
  rewrite getstate_run. unfold weight. run.
  destruct (_packed_weight self) as [pk|]; cbn; [|auto].
  destruct (conv_unpack pk); cbn.
  - split; [reflexivity|]. right. eauto.
  - destruct (permute to_NCHW _); cbn; (split; [reflexivity|]); right; eauto.
Qed.

End Composition.

(** ** The properties at concrete inputs *)

#[local] Existing Instance example_backend.

(** The reference backend unpacks what it packed. *)
Lemma reference_unpack_prepack (qparams : Observer -> float * Z) :
  forall t s p d g pk,
    @conv_prepack (reference_backend qparams) t s p d g = inr pk ->
    @conv_unpack (reference_backend qparams) pk = inr t.
Proof. intros t s p d g pk [= <-]. reflexivity. Defined.

(** [set_weight(example_weight')] on [example_module], then [weight()]. *)
Lemma set_weight_weight_roundtrip_witness :
  exists st,
    @set_weight example_backend example_weight' (World example_module [])
    = (inr tt, st) /\
    weight_scale (obj st) = 0.5%float /\
    fst (weight st) = inr example_weight' /\
    obj (snd (weight st)) = obj st.
Proof.
  apply (@set_weight_weight_roundtrip example_backend
           (reference_unpack_prepack example_qparams) example_module []
           example_weight').
  - reflexivity.
  - intros w' _. eexists. reflexivity.
Defined.

(** The state tuple of [example_module]. *)
Lemma serialized_state_is_portable_witness :
  @__getstate__ example_backend (World example_module [])
  = (inr [ PyInt 2; PyInt 1; PyTuple2 1 1; PyTuple2 1 1; PyTuple2 0 0;
           PyTuple2 1 1; PyBool false; PyInt 0; PyInt 1; PyStr "zeros";
           PyQTensor example_weight; PyQTensor example_bias; PyFloat 1;
           PyInt 0 ],
     World example_module [call_conv_unpack example_packed]).
Proof.
  exact (proj1 (proj2 (@serialized_state_is_portable example_backend
                         example_module [] eq_refl))).
Defined.


(** [forward] of [example_module] on an input of rank 3. *)
Lemma forward_rank_not_4_witness :
  @forward example_backend example_input_rank3 (World example_module [])
  = (inl (ValueError "Input shape must be `(N, C, H, W)`!"),
     World example_module []).
Proof.
  apply (@forward_rank_not_4 example_backend example_module []
           example_input_rank3).
  cbn. lia.
Defined.

(** C4, as stated, fails.  Take the reference backend with a weight
    observer that reports scale 0.5 and zero point 3, and
    [example_float_module]: [from_float] accepts the module and quantizes its
    weight with zero point 3, not 0. *)
Lemma from_float_weight_zero_point_counterexample :
  ~ (forall (B : Backend) (cls : QuantizedClass) (st st2 : world FloatModule)
            (qconv : Conv2d),
        from_float cls st = (inr qconv, st2) ->
        forall x s z,
          In (x, s, z, qint8) (quantize_calls (calls st2)) -> z = 0).
Proof.
  intros Hall.
  assert (Hrun : @from_float example_backend Conv2d_class
                   (World example_float_module [])
                 = (inr example_quantized, snd example_converted))
    by reflexivity.
  assert (Hcalls : quantize_calls (calls (snd example_converted))
                   = [(fm_weight example_float_module, 0.5%float, 3, qint8);
                      (mkFTensor [1] [0.25%float], (0.25 / 65536)%float, 0,
                       qint32)])
    by reflexivity.
  assert (H30 : 3 = 0).
  { apply (Hall _ _ _ _ _ Hrun (fm_weight example_float_module) 0.5%float).
    rewrite Hcalls. left. reflexivity. }
  discriminate.
Qed.

(** The conversion of [example_float_module]: the weight is quantized with
    the observer's scale 0.5 and zero point 3. *)
Lemma from_float_weight_qparams_witness :
  exists qweight l,
    @quantize_linear example_backend (fm_weight example_float_module) 0.5 3 qint8
    = inr qweight /\
    weight_scale example_quantized = q_scale qweight /\
    calls (snd example_converted) = calls (snd example_observed) ++ l /\
    List.filter (fun c => dtype_eqb (snd c) qint8) (quantize_calls l)
    = [(fm_weight example_float_module, 0.5%float, 3, qint8)].
Proof.
  apply (from_float_weight_qparams Conv2d_class (World example_float_module [])
           (snd example_observed) (snd example_converted) example_float_module
           (observe (mkObserver qint8 []) (fm_weight example_float_module))
           (mkObserver quint8 []) example_quantized);
    reflexivity.
Defined.



(** C7, as stated, fails.  Take the reference backend and
    [example_float_module_quint8_no_observer], a [Conv2d] whose qconfig
    makes a weight observer configured for [quint8] and which has no
    [observer] attached: [from_float] raises [AttributeError] where it reads
    [mod.observer], before it reaches the dtype check. *)
Lemma from_float_dtype_gate_counterexample :
  ~ (forall (B : Backend) (st : world FloatModule) (qconfig : QConfig),
        fm_type (obj st) = nn_Conv2d ->
        fm_weight_fake_quant (obj st) = None ->
        fm_qconfig (obj st) = Some qconfig ->
        obs_dtype (qconfig_weight qconfig) <> qint8 ->
        exists msg st',
          from_float Conv2d_class st = (inl (AssertionError msg), st')).
Proof.
  intros Hall.
  assert (Hrun : @from_float example_backend Conv2d_class
                   (World example_float_module_quint8_no_observer [])
                 = (inl (AttributeError "observer"),
                    World example_float_module_quint8_no_observer []))
    by reflexivity.
  destruct (Hall example_backend
              (World example_float_module_quint8_no_observer [])
              (mkQConfig (mkObserver quint8 [])) eq_refl eq_refl eq_refl)
    as (msg & st' & Hraise); [discriminate|].
  rewrite Hrun in Hraise. discriminate.
Qed.

(** The conversion of a module whose weight observer is configured for
    [quint8]. *)
Lemma from_float_dtype_gate_witness :
  exists l,
    from_float Conv2d_class (World example_float_module_quint8 [])
    = (inl (AssertionError "Weight observer must have a dtype of qint8"),
       World example_float_module_quint8 ([] ++ l)) /\
    forallb (fun e => negb (builds_quantized e)) l = true.
Proof.
  apply (proj1 (from_float_dtype_gate Conv2d_class
                  (World example_float_module_quint8 []))
           (World example_float_module_quint8
              [call_observe (mkObserver quint8 [])
                 (fm_weight example_float_module_quint8)])
           example_float_module_quint8
           (observe (mkObserver quint8 []) (fm_weight example_float_module_quint8))
           (mkObserver quint8 [])).
  - reflexivity.
  - discriminate.
Defined.

(** C9, as stated, fails.  Take the reference backend, [example_module]
    and a dictionary that holds a weight but no bias: the load raises
    [KeyError], but the module it leaves behind is no longer the module it
    was given: its packed weight and weight scale are those of the new
    weight. *)
Lemma load_missing_bias_counterexample :
  ~ (forall (B : Backend) (prefix : string) (self : Conv2d)
            (sd : gmap string (pyval Packed)) (cs : list event),
        sd !! (prefix ++ "weight")%string = None \/
        sd !! (prefix ++ "bias")%string = None \/
        sd !! (prefix ++ "scale")%string = None \/
        sd !! (prefix ++ "zero_point")%string = None ->
        exists e st,
          _load_from_state_dict prefix (World (self, sd) cs) = (inl e, st) /\
          fst (obj st) = self).
Proof.
  intros Hall.
  destruct (Hall example_backend ""%string example_module
              example_state_dict_no_bias [] (or_intror (or_introl eq_refl)))
    as (e & st & Hrun & Hself).
  erewrite (@load_missing_bias example_backend ""%string example_module) in Hrun;
    [|reflexivity|reflexivity|reflexivity].
  injection Hrun as _ <-. cbn in Hself. discriminate.
Qed.

(** Loading a dictionary that holds a weight but no bias into
    [example_module]. *)
Lemma load_state_dict_field_by_field_witness :
  @_load_from_state_dict example_backend "" (World (example_module,
                                                    example_state_dict_no_bias) [])
  = (inl (KeyError "bias"),
     World (set_weight_scale 0.5
              (set__packed_weight
                 (mkQTensor [(1, 2); (1, 1); (1, 1); (2, 1)] 0 [7; 9] 0.5 0 qint8,
                  (1, 1), (0, 0), (1, 1), 1) example_module),
            delete "weight" example_state_dict_no_bias)
       [call_conv_prepack
          (mkQTensor [(1, 2); (1, 1); (1, 1); (2, 1)] 0 [7; 9] 0.5 0 qint8)
          (1, 1) (0, 0) (1, 1) 1]).
Proof.
  apply (proj1 (proj1 (proj2 (load_state_dict_field_by_field "" example_module
                                example_state_dict_no_bias []))
                  (PyQTensor example_weight') example_module'
                  [call_conv_prepack (fst (fst (fst (fst example_packed'))))
                     (1, 1) (0, 0) (1, 1) 1]
                  eq_refl eq_refl)).
  reflexivity.
Defined.

(** C10, as stated, fails.  Take the reference backend, [example_module]
    and [example_state_dict_rank3], which holds the four keys with a weight
    of rank 3: [set_weight] refuses the weight, the load raises, and the
    entry under ["weight"] (like the other three) is still in the
    dictionary. *)
Lemma load_refused_weight_keeps_entries_counterexample :
  ~ (forall (B : Backend) (prefix : string) (self : Conv2d)
            (sd : gmap string (pyval Packed)) (cs : list event),
        is_Some (sd !! (prefix ++ "weight")%string) ->
        is_Some (sd !! (prefix ++ "bias")%string) ->
        is_Some (sd !! (prefix ++ "scale")%string) ->
        is_Some (sd !! (prefix ++ "zero_point")%string) ->
        let final :=
          snd (obj (snd (_load_from_state_dict prefix (World (self, sd) cs)))) in
        final !! (prefix ++ "weight")%string = None /\
        final !! (prefix ++ "bias")%string = None /\
        final !! (prefix ++ "scale")%string = None /\
        final !! (prefix ++ "zero_point")%string = None).
Proof.
  intros Hall.
  assert (Hrun : @_load_from_state_dict example_backend ""
                   (World (example_module, example_state_dict_rank3) [])
                 = (inl (RuntimeError "number of dims don't match in permute"),
                    World (example_module, example_state_dict_rank3) [])).
  { apply (@load_refused_weight example_backend "" example_module
             example_state_dict_rank3 [] (PyQTensor example_weight_rank3) _
             (World example_module []) eq_refl).
    reflexivity. }
  destruct (Hall example_backend ""%string example_module
              example_state_dict_rank3 [])
    as (Hw & _); try (eexists; reflexivity).
  rewrite Hrun in Hw. discriminate Hw.
Qed.

(** Loading a complete dictionary, which also holds an entry of another
    module, into [example_module]. *)
Lemma load_state_dict_removes_required_witness :
  let run_load :=
    @_load_from_state_dict example_backend "" (World (example_module,
                                                      example_state_dict) []) in
  let final := snd (obj (snd run_load)) in
  fst run_load = inr tt /\
  calls (snd run_load)
  = [call_conv_prepack
       (mkQTensor [(1, 2); (1, 1); (1, 1); (2, 1)] 0 [7; 9] 0.5 0 qint8)
       (1, 1) (0, 0) (1, 1) 1]
    ++ [call_Module_load_from_state_dict final ""] /\
  final !! "weight" = None /\ final !! "bias" = None /\
  final !! "scale" = None /\ final !! "zero_point" = None /\
  (forall k, k <> "weight" -> k <> "bias" -> k <> "scale" -> k <> "zero_point" ->
             final !! k = example_state_dict !! k).
Proof.
  apply (proj2 (load_state_dict_removes_required "" example_module
                  example_state_dict [])
           (PyQTensor example_weight') example_module'
           [call_conv_prepack (fst (fst (fst (fst example_packed'))))
              (1, 1) (0, 0) (1, 1) 1]
           PyNone (PyTensorF 0.25) 0.25%float (PyTensorI 128) 128);
    reflexivity.
Defined.

(** A module without bias converts to a quantized module without bias. *)
Example from_float_without_bias :
  match fst (from_float Conv2d_class (World example_float_module_no_bias [])) with
  | inr qconv => bias qconv = PyNone
  | inl _ => False
  end.
Proof. reflexivity. Qed.

(** [Conv2d(10, 10, 3, groups=3)]: 10 is not a multiple of 3. *)
Example init_10_channels_3_groups :
  __init__ 10 10 (Int 3) (Int 1) (Int 0) (Int 1) 3 true "zeros" (World tt [])
  = (inl (ValueError "in_channels must be divisible by groups"), World tt []).
Proof. reflexivity. Qed.

(** The state dictionary of [example_module] under the prefix ["conv."]. *)
Example save_example_module :
  snd (obj (snd (_save_to_state_dict "conv." false
                   (World (example_module, ∅) []))))
  = <["conv.bias" := PyQTensor example_bias]>
      (<["conv.zero_point" := PyTensorI 0]>
         (<["conv.scale" := PyTensorF 1]>
            (<["conv.weight" := PyQTensor example_weight]> ∅))).
Proof. reflexivity. Qed.

(** ** Further properties at concrete inputs *)

(** [set_weight] of a weight of rank 3. *)
Lemma set_weight_rank_not_4_witness :
  set_weight example_weight_rank3 (World example_module [])
  = (inl (RuntimeError "number of dims don't match in permute"),
     World example_module []).
Proof.
  apply (set_weight_rank_not_4 example_module [] example_weight_rank3).
  cbn. lia.
Defined.

(** [forward] of a module without bias. *)
Lemma forward_without_bias_witness :
  exists input_nhwc,
    permute to_NHWC example_input = inr input_nhwc /\
    forward example_input (World example_module_no_bias [])
    = (match conv2d input_nhwc example_packed None (stride example_module_no_bias)
               (padding example_module_no_bias) (dilation example_module_no_bias)
               (groups example_module_no_bias) (scale example_module_no_bias)
               (zero_point example_module_no_bias) with
       | inr output => permute to_NCHW output
       | inl e => inl e
       end,
       World example_module_no_bias
         ([] ++ [call_conv2d input_nhwc example_packed None
                   (stride example_module_no_bias)
                   (padding example_module_no_bias)
                   (dilation example_module_no_bias)
                   (groups example_module_no_bias)
                   (scale example_module_no_bias)
                   (zero_point example_module_no_bias)])).
Proof.
  apply (forward_without_bias example_module_no_bias [] example_input
           example_packed); reflexivity.
Defined.

(** The layout around the kernel for [example_input]. *)
Lemma forward_layout_witness :
  exists input_nhwc kernel_output pk b,
    permute to_NHWC example_input = inr input_nhwc /\
    conv2d input_nhwc pk b (stride example_module) (padding example_module)
      (dilation example_module) (groups example_module) (scale example_module)
      (zero_point example_module) = inr kernel_output /\
    (forall n c h w,
        q_elem input_nhwc [n; h; w; c] = q_elem example_input [n; c; h; w]) /\
    (forall n c h w,
        q_elem example_output [n; c; h; w] = q_elem kernel_output [n; h; w; c]) /\
    q_scale example_output = q_scale kernel_output /\
    q_zero_point example_output = q_zero_point kernel_output /\
    q_dtype example_output = q_dtype kernel_output.
Proof.
  apply (forward_layout example_module [] example_input example_output
           (snd example_forward)).
  reflexivity.
Defined.

(** [Conv2d(2, 1, 1)]. *)
Lemma init_constructs_witness :
  __init__ 2 1 (Int 1) (Int 1) (Int 0) (Int 1) 1 true "zeros" (World tt [])
  = (inr example_constructed,
     World tt
       ([] ++ [call_empty_affine_quantized [1; 2; 1; 1] 1 0 qint8;
               call_conv_prepack
                 (mkQTensor [(1, 2); (1, 1); (1, 1); (2, 1)] 0 [0; 0] 1 0 qint8)
                 (1, 1) (0, 0) (1, 1) 1]
           ++ [call_empty_affine_quantized [1] 1 0 qint32])).
Proof.
  apply (@init_constructs example_backend unit 2 1 (Int 1) (Int 1) (Int 0) (Int 1)
           1 true (World tt [])
           (mkQTensor [(1, 2); (2, 1); (1, 1); (1, 1)] 0 [0; 0] 1 0 qint8)
           (mkQTensor [(1, 2); (1, 1); (1, 1); (2, 1)] 0 [0; 0] 1 0 qint8)
           (mkQTensor [(1, 1)] 0 [0] 1 0 qint32)
           (mkQTensor [(1, 2); (1, 1); (1, 1); (2, 1)] 0 [0; 0] 1 0 qint8,
            (1, 1), (0, 0), (1, 1), 1));
    (reflexivity || (cbn; lia)).
Defined.

(** [Conv2d(10, 10, 3, groups=-1)]: the placeholder weight would have the
    shape [10, -10, 3, 3]. *)
Lemma init_allocation_refused_witness :
  __init__ 10 10 (Int 3) (Int 1) (Int 0) (Int 1) (-1) true "zeros" (World tt [])
  = (inl (RuntimeError "Trying to create tensor with negative dimension"),
     World tt ([] ++ [call_empty_affine_quantized [10; -10; 3; 3] 1 0 qint8])).
Proof.
  apply (@init_allocation_refused example_backend unit 10 10 (Int 3) (Int 1)
           (Int 0) (Int 1) (-1) true (World tt [])
           (RuntimeError "Trying to create tensor with negative dimension"));
    (reflexivity || (cbn; lia)).
Defined.

Lemma constructed_module_invariants_witness :
  padding_mode example_constructed = "zeros"%string /\
  groups example_constructed <> 0 /\
  in_channels example_constructed mod groups example_constructed = 0 /\
  out_channels example_constructed mod groups example_constructed = 0 /\
  (exists pk, _packed_weight example_constructed = Some pk) /\
  transposed example_constructed = false /\
  output_padding example_constructed = 0 /\
  scale example_constructed = 1%float /\
  zero_point example_constructed = 0 /\
  (bias example_constructed = PyNone <-> true = false).
Proof.
  apply (@constructed_module_invariants example_backend unit 2 1 (Int 1) (Int 1)
           (Int 0) (Int 1) 1 true "zeros" (World tt [])
           (World tt
              [call_empty_affine_quantized [1; 2; 1; 1] 1 0 qint8;
               call_conv_prepack
                 (mkQTensor [(1, 2); (1, 1); (1, 1); (2, 1)] 0 [0; 0] 1 0 qint8)
                 (1, 1) (0, 0) (1, 1) 1;
               call_empty_affine_quantized [1] 1 0 qint32])
           example_constructed).
  reflexivity.
Defined.

(** [__setstate__] of a state with circular padding and 3 channels in 2
    groups. *)
Lemma setstate_installs_witness :
  __setstate__ example_state_unchecked (World example_module [])
  = (inr tt,
     World (mkConv2d 3 1 (1, 1) (2, 2) (0, 0) (1, 1) false 0 2 "circular"
              (Some (mkQTensor [(1, 2); (1, 1); (1, 1); (2, 1)] 0 [7; 9] 0.5 0
                       qint8, (2, 2), (0, 0), (1, 1), 2))
              0.5 PyNone 0.25 128)
       ([] ++ [call_conv_prepack
                 (mkQTensor [(1, 2); (1, 1); (1, 1); (2, 1)] 0 [7; 9] 0.5 0 qint8)
                 (2, 2) (0, 0) (1, 1) 2])).
Proof.
  apply (setstate_installs example_module [] example_state_unchecked
           (mkQTensor [(1, 2); (1, 1); (1, 1); (2, 1)] 0 [7; 9] 0.5 0 qint8)
           (mkQTensor [(1, 2); (1, 1); (1, 1); (2, 1)] 0 [7; 9] 0.5 0 qint8,
            (2, 2), (0, 0), (1, 1), 2)); reflexivity.
Defined.

(** [__setstate__] of a state whose weight has rank 3. *)
Lemma setstate_refused_weight_witness :
  fst (__setstate__ example_state_rank3 (World example_module []))
  = inl (RuntimeError "number of dims don't match in permute") /\
  obj (snd (__setstate__ example_state_rank3 (World example_module [])))
  = with_config example_state_rank3 example_module.
Proof.
  apply (setstate_refused_weight example_module [] example_state_rank3).
  reflexivity.
Defined.

(** [__getstate__] of [example_module], then [__setstate__] on another
    module. *)
Lemma getstate_setstate_roundtrip_witness :
  exists st',
    __setstate__ example_state (World example_constructed []) = (inr tt, st') /\
    same_config (obj st') example_module /\
    bias (obj st') = bias example_module /\
    scale (obj st') = scale example_module /\
    zero_point (obj st') = zero_point example_module /\
    weight_scale (obj st') = q_scale (state_weight example_state) /\
    fst (weight st') = inr (state_weight example_state) /\
    fst (weight (World example_module [])) = inr (state_weight example_state).
Proof.
  apply (getstate_setstate_roundtrip (reference_unpack_prepack example_qparams)
           example_module example_constructed [] [] example_state
           (World example_module [call_conv_unpack example_packed])).
  - reflexivity.
  - intros w_nhwc _. eexists. reflexivity.
Defined.

(** Saving [example_module] under ["conv."] leaves the entry of another
    module alone. *)
Lemma save_to_state_dict_frame_witness :
  snd (obj (snd (_save_to_state_dict "conv." false
                   (World (example_module, example_destination) []))))
  !! "fc.weight"
  = example_destination !! "fc.weight".
Proof.
  apply (save_to_state_dict_frame example_module example_destination "conv."
           false [] "fc.weight"); discriminate.
Defined.

(** Saving [example_module] and loading into [example_constructed]. *)
Lemma save_load_roundtrip_witness :
  let written :=
    snd (obj (snd (_save_to_state_dict "conv." false
                     (World (example_module, example_destination) [])))) in
  let run_load :=
    _load_from_state_dict "conv." (World (example_constructed, written) []) in
  let loaded := fst (obj (snd run_load)) in
  fst run_load = inr tt /\
  same_config loaded example_constructed /\
  bias loaded = bias example_module /\
  zero_point loaded = zero_point example_module /\
  scale loaded = default_float (scale example_module) /\
  weight_scale loaded = q_scale example_weight /\
  fst (weight (World loaded [])) = inr example_weight /\
  snd (obj (snd run_load))
  = delete "conv.zero_point"
      (delete "conv.scale"
         (delete "conv.bias" (delete "conv.weight" example_destination))).
Proof.
  apply (save_load_roundtrip (reference_unpack_prepack example_qparams)
           (fun x => eq_refl) (fun n => eq_refl)
           example_module example_constructed example_destination "conv." false
           [] [] example_weight).
  - reflexivity.
  - intros w_nhwc _. eexists. reflexivity.
Defined.

(** [Conv2d.from_float] of a [ConvReLU2d]. *)
Lemma from_float_refuses_witness :
  from_float Conv2d_class (World example_conv_relu [])
  = (inl (AssertionError " nnq.Conv2d.from_float only works for Conv2d"),
     World example_conv_relu []).
Proof.
  apply (proj1 (from_float_refuses Conv2d_class (World example_conv_relu [])
                  eq_refl)).
  reflexivity.
Defined.

(** The conversion of [example_float_module] leaves it as it is. *)
Lemma from_float_keeps_float_module_witness :
  obj (snd (from_float Conv2d_class (World example_float_module [])))
  = example_float_module.
Proof.
  apply (from_float_keeps_float_module Conv2d_class
           (World example_float_module [])).
  left. reflexivity.
Defined.

(** The conversion of a [ConvBn2d] without observer: it raises, and the
    module's weight and bias are the fused ones. *)
Lemma from_float_fuses_in_place_witness :
  obj (snd (from_float Conv2d_class (World example_qat_module [])))
  = fm_set_weight_bias
      (fst (fuse_conv_bn_weights (fm_weight example_qat_module)
              (fm_bias example_qat_module) (running_mean example_bn)
              (running_var example_bn) (eps example_bn) (gamma example_bn)
              (beta example_bn)))
      (Some (snd (fuse_conv_bn_weights (fm_weight example_qat_module)
                    (fm_bias example_qat_module) (running_mean example_bn)
                    (running_var example_bn) (eps example_bn) (gamma example_bn)
                    (beta example_bn))))
      example_qat_module /\
  exists l,
    calls (snd (from_float Conv2d_class (World example_qat_module [])))
    = [] ++ call_fuse_conv_bn_weights (fm_weight example_qat_module)
              (fm_bias example_qat_module) example_bn :: l.
Proof.
  apply (from_float_fuses_in_place Conv2d_class (World example_qat_module [])
           (mkObserver qint8 []) example_bn); reflexivity.
Defined.

(** The module that the conversion of [example_float_module] returns. *)
Lemma from_float_result_witness :
  fm_padding_mode example_float_module = "zeros"%string /\
  fm_groups example_float_module <> 0 /\
  fm_in_channels example_float_module mod fm_groups example_float_module = 0 /\
  fm_out_channels example_float_module mod fm_groups example_float_module = 0 /\
  exists qweight w_nhwc pk,
    quantize_linear (fm_weight example_float_module) 0.5 3 qint8 = inr qweight /\
    permute to_NHWC qweight = inr w_nhwc /\
    conv_prepack w_nhwc (1, 1) (0, 0) (1, 1) 1 = inr pk /\
    example_quantized
    = mkConv2d 1 1 (1, 1) (1, 1) (0, 0) (1, 1) false 0 1 "zeros" (Some pk)
        (q_scale qweight) (bias example_quantized) 0.25 128.
Proof.
  apply (from_float_result Conv2d_class (World example_float_module [])
           (snd example_observed) (snd example_converted) example_float_module
           (observe (mkObserver qint8 []) (fm_weight example_float_module))
           (mkObserver quint8 []) example_quantized);
    reflexivity.
Defined.

(** Loading a dictionary whose weight has rank 3. *)
Lemma load_weight_rank_not_4_witness :
  _load_from_state_dict "" (World (example_module, example_state_dict_rank3) [])
  = (inl (RuntimeError "number of dims don't match in permute"),
     World (example_module, example_state_dict_rank3) []).
Proof.
  apply (load_weight_rank_not_4 "" example_module example_state_dict_rank3 []
           example_weight_rank3).
  - reflexivity.
  - cbn. lia.
Defined.

